(** * lightflow command line client: [lightflow/scripts/cli.py]

    A shallow embedding of the five click commands ([info], [run], [stop],
    [worker], [config]) and of the command group [cli], together with the
    Python built-ins they rely on ([str.split], [dict], [str.format],
    [str.join]).  The lightflow engine, click's [style] and the file system
    are collaborators: the commands receive them through the interface
    [Env], and every call is recorded in the trace of the command. *)

From Stdlib Require Import ZArith String Ascii List Lia DecimalString.
From stdpp Require Import base option list gmap strings.

Local Open Scope string_scope.
Local Open Scope list_scope.
Local Open Scope Z_scope.

(** ** Python built-ins *)

Module Py.

(** Exceptions: the class decides which [except] clause catches an
    instance, [str(e)] is the message.  An instance of a subclass of
    [WorkflowArgumentError] counts as one of that class; the built-in
    classes are not subclasses of it. *)
Inductive exn_class :=
| ValueError
| KeyError
| AttributeError
| OSError
| WorkflowArgumentError
| OtherError (name : string).

Record exn := mk_exn { exc_class : exn_class; exc_msg : string }.

Inductive outcome (A : Type) :=
| Ok (a : A)
| Raise (e : exn).
Arguments Ok {A} a.
Arguments Raise {A} e.

#[global] Instance exn_class_eq_dec : EqDecision exn_class.
Proof. solve_decision. Defined.

(** [str(n)] for an [int]. *)
Definition str_int (n : Z) : string := NilZero.string_of_int (Z.to_int n).

(** A [str] is kept as the string of its code points, each below 256.

    [repr(s)] for a [str]: the quote is the apostrophe, unless [s] has an
    apostrophe and no double quote; the quote and the backslash are
    escaped with a backslash, tab, newline and carriage return are written
    [\t], [\n], [\r], and every other code point that is not printable
    (below 32, 127 to 160, 173) is written [\xhh] in lower-case hex. *)
Definition apostrophe : ascii := "039"%char.
Definition double_quote : ascii := "034"%char.
Definition backslash : ascii := "092"%char.

Definition hex_digit (n : nat) : ascii :=
  match String.get n "0123456789abcdef" with
  | Some c => c
  | None => "0"%char
  end.

Definition is_printable (n : nat) : bool :=
  negb (Nat.ltb n 32 || (Nat.leb 127 n && Nat.leb n 160) || Nat.eqb n 173).

Definition repr_char (quote c : ascii) : string :=
  let n := nat_of_ascii c in
  if Ascii.eqb c quote || Ascii.eqb c backslash then String backslash (String c EmptyString)
  else if Nat.eqb n 9 then String backslash "t"
  else if Nat.eqb n 10 then String backslash "n"
  else if Nat.eqb n 13 then String backslash "r"
  else if is_printable n then String c EmptyString
  else String backslash
         (String "x" (String (hex_digit (n / 16)) (String (hex_digit (n mod 16)) EmptyString))).

Fixpoint repr_body (quote : ascii) (s : string) : string :=
  match s with
  | EmptyString => EmptyString
  | String c rest => repr_char quote c +:+ repr_body quote rest
  end.

Fixpoint contains (c : ascii) (s : string) : bool :=
  match s with
  | EmptyString => false
  | String a rest => Ascii.eqb a c || contains c rest
  end.

Definition repr (s : string) : string :=
  let quote := if contains apostrophe s && negb (contains double_quote s)
               then double_quote else apostrophe in
  String quote (repr_body quote s +:+ String quote EmptyString).

(** [KeyError(k)] for a [str] key: [str(e)] is [repr(k)]. *)
Definition key_error (k : string) : exn := mk_exn KeyError (repr k).

(** [s.count(c)] for a one-character [c]. *)
Fixpoint count (c : ascii) (s : string) : nat :=
  match s with
  | EmptyString => 0%nat
  | String a rest => ((if Ascii.eqb a c then 1 else 0) + count c rest)%nat
  end.

(** Puts the character [c] in front of the first piece of a split. *)
Definition push_front (c : ascii) (pieces : list string) : list string :=
  match pieces with
  | [] => [String c EmptyString]
  | p :: ps => String c p :: ps
  end.

(** [s.split(sep, maxsplit)] for a one-character separator, the only kind
    the client uses.  A negative [maxsplit] (the default, -1) puts no bound
    on the number of cuts; empty pieces are kept. *)
Fixpoint split (sep : ascii) (maxsplit : Z) (s : string) {struct s} : list string :=
  if maxsplit =? 0 then [s]
  else match s with
       | EmptyString => [EmptyString]
       | String c rest =>
           if Ascii.eqb c sep then EmptyString :: split sep (maxsplit - 1) rest
           else push_front c (split sep maxsplit rest)
       end.

(** [sep.join(pieces)]. *)
Fixpoint join (sep : string) (pieces : list string) : string :=
  match pieces with
  | [] => EmptyString
  | [p] => p
  | p :: ps => p +:+ sep +:+ join sep ps
  end.

(** ['{:w}'.format(s)] for a string [s]: left aligned, padded with spaces
    up to width [w], never truncated. *)
Definition ljust (w : nat) (s : string) : string :=
  s +:+ string_of_list_ascii (repeat " "%char (w - String.length s)).

(** The message of the [ValueError] of [dict(seq)] at element [i]. *)
Definition dict_length_error (i : nat) (n : nat) : exn :=
  mk_exn ValueError
    ("dictionary update sequence element #" +:+ str_int (Z.of_nat i)
     +:+ " has length " +:+ str_int (Z.of_nat n) +:+ "; 2 is required").

(** [dict(seq)] for a sequence of lists of strings: the elements are taken
    in order, each must have length 2, and a key that comes again keeps the
    value of its last occurrence. *)
Fixpoint dict_update (i : nat) (seq : list (list string)) (d : gmap string string)
  : outcome (gmap string string) :=
  match seq with
  | [] => Ok d
  | [k; v] :: rest => dict_update (S i) rest (<[k:=v]> d)
  | elem :: _ => Raise (dict_length_error i (length elem))
  end.

Definition dict (seq : list (list string)) : outcome (gmap string string) :=
  dict_update 0 seq ∅.

(** [d[k]] on a dict literal with string keys, kept as the list of its
    items; a missing key raises [KeyError], whose message is the key's
    [repr]. *)
Fixpoint getitem {V : Type} (d : list (string * V)) (k : string) : outcome V :=
  match d with
  | [] => Raise (key_error k)
  | (k', v) :: rest => if String.eqb k' k then Ok v else getitem rest k
  end.

(** [enumerate(l)]. *)
Fixpoint enumerate_from {A : Type} (i : Z) (l : list A) : list (Z * A) :=
  match l with
  | [] => []
  | x :: xs => (i, x) :: enumerate_from (i + 1) xs
  end.

Definition enumerate {A : Type} (l : list A) : list (Z * A) := enumerate_from 0 l.

End Py.


(** ** Records exchanged with the lightflow engine *)

(** [worker_data['broker']]. *)
Record broker_info := {
  transport : string;
  hostname : string;
  port : Z;
  virtual_host : string
}.

(** [worker_data['proc']]. *)
Record proc_info := {
  pid : Z;
  processes : list Z
}.

Record worker_data := {
  broker : broker_info;
  proc : proc_info
}.

(** A task record; the key ['workflow_id'] may be missing. *)
Record task := {
  task_id : string;
  task_name : string;
  task_type : string;
  task_workflow_id : option string
}.

(** ** Effects: the trace of a command *)

Inductive event :=
| Echo (msg : string)
| GetWorkers
| GetQueues (name : string)
| GetTasks (name : string) (task_status : string)
| RunWorkflow (name : string) (clear_data : bool) (arguments : gmap string string)
| StopAllWorkflows
| StopTasks (ids : list string)
| RunWorker (queues : list string)
| LoadFromFile (path : string)
| ConfigDefault
| FileOpen (path : string) (mode : string)
| FileWrite (path : string) (data : string)
| FileClose (path : string).

(** A computation yields the events it performed, in order, and either a
    value or the exception that ended it. *)
Definition M (A : Type) : Type := (list event * Py.outcome A)%type.

Definition trace {A : Type} (m : M A) : list event := fst m.
Definition result {A : Type} (m : M A) : Py.outcome A := snd m.

Definition ret {A : Type} (a : A) : M A := ([], Py.Ok a).

Definition raise {A : Type} (e : Py.exn) : M A := ([], Py.Raise e).

Definition bind {A B : Type} (m : M A) (k : A -> M B) : M B :=
  match m with
  | (tr, Py.Ok a) => (tr ++ trace (k a), result (k a))
  | (tr, Py.Raise e) => (tr, Py.Raise e)
  end.

(** A pure Python expression that may raise. *)
Definition lift {A : Type} (r : Py.outcome A) : M A := ([], r).

(** A call to a collaborator: the call is recorded, its answer is the
    collaborator's. *)
Definition call {A : Type} (ev : event) (answer : Py.outcome A) : M A := ([ev], answer).

(** [click.echo(msg)]. *)
Definition echo (msg : string) : M unit := ([Echo msg], Py.Ok tt).

Declare Scope trace_scope.
Delimit Scope trace_scope with trace.
Notation "'let*' x ':=' m 'in' k" := (bind m (fun x => k))
  (at level 10, x name, m at level 100, k at level 200) : trace_scope.
Notation "m ;; k" := (bind m (fun _ => k))
  (at level 100, k at level 200, right associativity) : trace_scope.
Local Open Scope trace_scope.

(** [try: body except cls as e: handler e]. *)
Definition try_except {A : Type} (body : M A) (cls : Py.exn_class) (handler : Py.exn -> M A) : M A :=
  match body with
  | (tr, Py.Raise e) =>
      if decide (Py.exc_class e = cls) then (tr ++ trace (handler e), result (handler e))
      else (tr, Py.Raise e)
  | (tr, Py.Ok a) => (tr, Py.Ok a)
  end.

(** [for x in l: body x]. *)
Fixpoint for_each {A : Type} (l : list A) (body : A -> M unit) : M unit :=
  match l with
  | [] => ret tt
  | x :: xs => body x ;; for_each xs body
  end.

(** ** The collaborators *)

Class Env := {
  (** [click.style(text, fg=fg, bold=bold)] *)
  style : string -> option string -> option bool -> string;
  (** [lightflow.get_workers().items()] *)
  get_workers : Py.outcome (list (string * worker_data));
  get_queues : string -> Py.outcome (list string);
  get_tasks : string -> string -> Py.outcome (list task);
  run_workflow : string -> bool -> gmap string string -> Py.outcome string;
  stop_all_workflows : Py.outcome (list task);
  stop_tasks : list string -> Py.outcome (list task);
  run_worker : list string -> Py.outcome unit;
  (** [lf_config.load_from_file(path)] and [lf_config.default()] *)
  load_from_file : string -> Py.outcome unit;
  config_default : Py.outcome string;
  (** the built-in [open(path, mode)] *)
  open_file : string -> string -> Py.outcome unit
}.

(** [with open(path, mode) as f: body f].  When [open] raises the body does
    not run; otherwise the file is closed on the way out, whether the body
    returns or raises. *)
Definition with_open `{Env} {A : Type} (path mode : string) (body : string -> M A) : M A :=
  call (FileOpen path mode) (open_file path mode) ;;
  let r := body path in
  (trace r ++ [FileClose path], result r).

(** [f.write(data)]. *)
Definition file_write (f : string) (data : string) : M unit := ([FileWrite f data], Py.Ok tt).

(** ** The module's global names

    The top-level statements of [cli.py] bind these names, in this order.
    A function decorated with [@click.group()] or [@click.command()] is
    replaced by the click object built from it, so after the module has
    run, [config] names a click command; the configuration object of
    [lightflow.config] is bound to [lf_config]. *)

Inductive pyobj :=
| PyModule (name : string)
| PyConfig
| PyExceptionClass (name : string)
| PyClickGroup (name : string)
| PyClickCommand (name : string).

Definition module_bindings : list (string * pyobj) :=
  [ ("click", PyModule "click");
    ("lightflow", PyModule "lightflow");
    ("lf_config", PyConfig);
    ("WorkflowArgumentError", PyExceptionClass "WorkflowArgumentError");
    ("cli", PyClickGroup "cli");
    ("info", PyClickCommand "info");
    ("run", PyClickCommand "run");
    ("stop", PyClickCommand "stop");
    ("worker", PyClickCommand "worker");
    ("config", PyClickCommand "config") ].

Definition globals : gmap string pyobj :=
  foldl (fun g b => <[b.1 := b.2]> g) ∅ module_bindings.

(** A name that is not local to a function is looked up in the globals. *)
Definition load_global (name : string) : Py.outcome pyobj :=
  match globals !! name with
  | Some o => Py.Ok o
  | None => Py.Raise (Py.mk_exn (Py.OtherError "NameError")
                        ("name '" +:+ name +:+ "' is not defined"))
  end.

(** [o.default()]: only the configuration object has a method [default];
    on every other object bound by the module the attribute lookup raises
    [AttributeError], with the text Python has for a module, for a class
    and for an instance. *)
Definition call_default `{Env} (o : pyobj) : M string :=
  match o with
  | PyConfig => call ConfigDefault config_default
  | PyModule name =>
      raise (Py.mk_exn Py.AttributeError
               ("module '" +:+ name +:+ "' has no attribute 'default'"))
  | PyExceptionClass name =>
      raise (Py.mk_exn Py.AttributeError
               ("type object '" +:+ name +:+ "' has no attribute 'default'"))
  | PyClickGroup _ =>
      raise (Py.mk_exn Py.AttributeError "'Group' object has no attribute 'default'")
  | PyClickCommand _ =>
      raise (Py.mk_exn Py.AttributeError "'Command' object has no attribute 'default'")
  end.

(** ** The commands *)

Module Cli.
Section Commands.
Context `{Env}.

(** [cli(config)]: the command group, run before every command. *)
Definition cli (config : option string) : M unit :=
  match config with
  | Some path => call (LoadFromFile path) (load_from_file path)
  | None => ret tt
  end.

(** The dict literal [task_colour] of [info]. *)
Definition task_colour : list (string * list (string * option string)) :=
  [ ("active", [ ("workflow", Some "green"); ("dag", Some "yellow"); ("task", Some "magenta") ]);
    ("scheduled", [ ("workflow", None); ("dag", None); ("task", None) ]) ].

(** ['{} ({}) {} <{}>'.format(task['name'], task['type'], wid_str, task['id'])] *)
Definition task_text (t : task) (wid_str : string) : string :=
  task_name t +:+ " (" +:+ task_type t +:+ ") " +:+ wid_str +:+ " <" +:+ task_id t +:+ ">".

(** The body of [for i, task in enumerate(...)] in [info]. *)
Definition info_task (task_status : string) (it : Z * task) : M unit :=
  let (i, t) := it in
  let* wid_str :=
    (if String.eqb (task_type t) "workflow" then
       match task_workflow_id t with
       | Some wid => ret ("[" +:+ wid +:+ "]")
       | None => raise (Py.key_error "workflow_id")
       end
     else ret "") in
  let* colours := lift (Py.getitem task_colour task_status) in
  let* fg := lift (Py.getitem colours (task_type t)) in
  if i =? 0 then
    echo (Py.ljust 20 (style ("> " +:+ task_status +:+ ":") None (Some true))
          +:+ " " +:+ style (task_text t wid_str) fg None)
  else
    echo (Py.ljust 12 " " +:+ " " +:+ style (task_text t wid_str) fg None).

(** ['{}://{}:{}/{}'.format(broker['transport'], broker['hostname'],
    broker['port'], broker['virtual_host'])] *)
Definition broker_uri (b : broker_info) : string :=
  transport b +:+ "://" +:+ hostname b +:+ ":" +:+ Py.str_int (port b)
  +:+ "/" +:+ virtual_host b.

(** The line echoed for the broker of a worker. *)
Definition broker_line (b : broker_info) : string :=
  Py.ljust 20 (style "> broker:" None (Some true)) +:+ " " +:+ broker_uri b.

(** The body of [for name, worker_data in workers.items()] in [info]. *)
Definition info_worker (w : string * worker_data) : M unit :=
  let (name, worker_data) := w in
  let broker := broker worker_data in
  let proc := proc worker_data in
  echo (style "Worker:" (Some "blue") (Some true) +:+ " " +:+ style name (Some "blue") None) ;;
  echo (Py.ljust 20 (style "> pid:" None (Some true)) +:+ " " +:+ Py.str_int (pid proc)) ;;
  echo (Py.ljust 20 (style "> processes:" None (Some true)) +:+ " "
        +:+ Py.join ", " (map Py.str_int (processes proc))) ;;
  echo (broker_line broker) ;;
  let* queues := call (GetQueues name) (get_queues name) in
  echo (Py.ljust 20 (style "> queues:" None (Some true)) +:+ " " +:+ Py.join ", " queues) ;;
  for_each ["active"; "scheduled"] (fun task_status =>
    let* tasks := call (GetTasks name task_status) (get_tasks name task_status) in
    for_each (Py.enumerate tasks) (info_task task_status)) ;;
  echo (String "010" EmptyString).

(** [info()]: print worker and task information. *)
Definition info : M unit :=
  let* workers := call GetWorkers get_workers in
  echo (String "010" EmptyString) ;;
  for_each workers info_worker.

(** [run(keep_data, name, args)]: run a workflow. *)
Definition run (keep_data : bool) (name : string) (args : list string) : M unit :=
  try_except
    (let* arguments := lift (Py.dict (map (Py.split "=" 1) args)) in
     let* _ := call (RunWorkflow name (negb keep_data) arguments)
                    (run_workflow name (negb keep_data) arguments) in
     ret tt)
    Py.WorkflowArgumentError
    (fun e =>
       echo (style "An error occurred when trying to run the workflow:" (Some "red") (Some true)) ;;
       echo (">> " +:+ Py.exc_msg e)).

(** ['Sent stop signal to {}: {} <{}>'.format(task['type'], task['name'], task['id'])] *)
Definition stop_line (t : task) : string :=
  "Sent stop signal to " +:+ task_type t +:+ ": " +:+ task_name t +:+ " <" +:+ task_id t +:+ ">".

(** [stop(ids)]: stop dags or workflows gracefully. *)
Definition stop (ids : list string) : M unit :=
  if Z.of_nat (length ids) =? 0 then
    echo "Please specify at least one dag or workflow"
  else
    let* tasks_stopped :=
      (if bool_decide ("all" ∈ ids) then call StopAllWorkflows stop_all_workflows
       else call (StopTasks ids) (stop_tasks ids)) in
    if Z.of_nat (length tasks_stopped) >? 0 then
      for_each tasks_stopped (fun t => echo (stop_line t))
    else
      echo "Could not find the specified dag or workflow".

(** [worker(queues)]: start a worker process. *)
Definition worker (queues : string) : M unit :=
  call (RunWorker (Py.split "," (-1) queues)) (run_worker (Py.split "," (-1) queues)).

(** [config()]: the name [config] in the body is not local, so it is read
    from the module's globals. *)
Definition config : M unit :=
  with_open "lightflow.cfg" "w" (fun f =>
    let* obj := lift (load_global "config") in
    let* data := call_default obj in
    file_write f data).

(** *** What click passes to the callbacks *)

(** [--keep-data] is a flag ([is_flag=True, default=False]): [keep_data]
    is [True] when the flag is on the command line and the default
    otherwise. *)
Definition run_command (keep_data_given : bool) (name : string) (args : list string) : M unit :=
  run (if keep_data_given then true else false) name args.

(** [--queues] has the default ['workflow,dag,task']. *)
Definition queues_default : string := "workflow,dag,task".

Definition worker_command (queues : option string) : M unit :=
  worker (match queues with Some q => q | None => queues_default end).

End Commands.
End Cli.

(** ** The Stop Coordinator *)

Section StopCoordinator.
(** When an id designates a task, and the tasks the registry holds. *)
Variable matches : task -> string -> bool.
Variable registry : list task.

(** Modelled from the spec: [lightflow.stop_tasks], which is not part of
    [cli.py].  "stop_tasks(ids) -> list of affected task records"; "If no
    task matches the given id(s), the call returns an empty list - this is
    not an error, only an empty result."  The affected records are the
    registered tasks that one of the ids matches. *)
Definition spec_stop_tasks (ids : list string) : list task :=
  List.filter (fun t => existsb (matches t) ids) registry.

(** Modelled from the spec: [lightflow.stop_all_workflows], which is not
    part of [cli.py].  "in the all-case, every currently active/scheduled
    workflow-type task"; "stop_all_workflows() on an engine with zero active
    workflows returns an empty list". *)
Definition spec_stop_all_workflows : list task :=
  List.filter (fun t => String.eqb (task_type t) "workflow") registry.

(** The collaborators of [E], with the Stop Coordinator of the spec. *)
Definition with_stop_coordinator (E : Env) : Env :=
  {| style := @style E;
     get_workers := @get_workers E;
     get_queues := @get_queues E;
     get_tasks := @get_tasks E;
     run_workflow := @run_workflow E;
     stop_all_workflows := Py.Ok spec_stop_all_workflows;
     stop_tasks := fun ids => Py.Ok (spec_stop_tasks ids);
     run_worker := @run_worker E;
     load_from_file := @load_from_file E;
     config_default := @config_default E;
     open_file := @open_file E |}.

(** The tasks a stop request is aimed at. *)
Definition targeted (ids : list string) (t : task) : bool :=
  if bool_decide ("all" ∈ ids) then String.eqb (task_type t) "workflow"
  else existsb (matches t) ids.

End StopCoordinator.

(** ** A concrete environment, for running the commands *)

Definition demo_worker : worker_data :=
  {| broker := {| transport := "amqp"; hostname := "localhost"; port := 5672; virtual_host := "/" |};
     proc := {| pid := 4711; processes := [4712; 4713] |} |}.

Definition demo_task : task :=
  {| task_id := "t-1"; task_name := "demo"; task_type := "workflow"; task_workflow_id := Some "wf-1" |}.

Definition demo_env : Env :=
  {| style := fun text _ _ => text;
     get_workers := Py.Ok [("celery@a", demo_worker); ("celery@b", demo_worker)];
     get_queues := fun _ => Py.Ok ["workflow"; "dag"; "task"];
     get_tasks := fun _ st => Py.Ok (if String.eqb st "active" then [demo_task] else []);
     run_workflow := fun _ _ _ => Py.Ok "wf-1";
     stop_all_workflows := Py.Ok [demo_task];
     stop_tasks := fun ids => Py.Ok (spec_stop_tasks (fun t i => String.eqb (task_id t) i) [demo_task] ids);
     run_worker := fun _ => Py.Ok tt;
     load_from_file := fun _ => Py.Ok tt;
     config_default := Py.Ok "[lightflow]";
     open_file := fun _ _ => Py.Ok tt |}.

(** [E] with a [run_workflow] that rejects the arguments. *)
Definition with_run_workflow_error (E : Env) : Env :=
  {| style := @style E;
     get_workers := @get_workers E;
     get_queues := @get_queues E;
     get_tasks := @get_tasks E;
     run_workflow := fun _ _ _ =>
       Py.Raise (Py.mk_exn Py.WorkflowArgumentError "missing argument");
     stop_all_workflows := @stop_all_workflows E;
     stop_tasks := @stop_tasks E;
     run_worker := @run_worker E;
     load_from_file := @load_from_file E;
     config_default := @config_default E;
     open_file := @open_file E |}.

(** [m] ends with an exception of class [cls]. *)
Definition raises {A : Type} (cls : Py.exn_class) (m : M A) : Prop :=
  exists e, result m = Py.Raise e /\ Py.exc_class e = cls.

(** The calls to [run_workflow] in a trace, with their arguments. *)
Definition run_workflow_calls (tr : list event) : list (string * bool * gmap string string) :=
  omap (fun ev => match ev with
                  | RunWorkflow name clear arguments => Some (name, clear, arguments)
                  | _ => None
                  end) tr.

(** The calls to the lightflow engine in a trace: everything but console
    output. *)
Definition is_engine_call (ev : event) : bool :=
  match ev with
  | GetWorkers | GetQueues _ | GetTasks _ _ | RunWorkflow _ _ _
  | StopAllWorkflows | StopTasks _ | RunWorker _ => true
  | _ => false
  end.

Definition engine_calls (tr : list event) : list event := List.filter is_engine_call tr.

Definition echoed (tr : list event) : list string :=
  omap (fun ev => match ev with Echo msg => Some msg | _ => None end) tr.

Definition written (tr : list event) : list (string * string) :=
  omap (fun ev => match ev with FileWrite f data => Some (f, data) | _ => None end) tr.

(** ** Vocabulary for the further properties *)

(** A concrete environment with the answers of the engine as parameters. *)
Definition demo_env_with
    (workers : Py.outcome (list (string * worker_data)))
    (tasks : string -> string -> Py.outcome (list task))
    (started : Py.outcome string)
    (stopped : Py.outcome (list task)) : Env :=
  {| style := fun text _ _ => text;
     get_workers := workers;
     get_queues := fun _ => Py.Ok ["workflow"; "dag"; "task"];
     get_tasks := tasks;
     run_workflow := fun _ _ _ => started;
     stop_all_workflows := stopped;
     stop_tasks := fun _ => stopped;
     run_worker := fun _ => Py.Ok tt;
     load_from_file := fun _ => Py.Ok tt;
     config_default := Py.Ok "[lightflow]";
     open_file := fun _ _ => Py.Ok tt |}.

(** Two more task records: a plain task, and one of a type [info] has no
    colour for. *)
Definition plain_task : task :=
  {| task_id := "t-3"; task_name := "sum"; task_type := "task"; task_workflow_id := None |}.

Definition odd_task : task :=
  {| task_id := "t-2"; task_name := "odd"; task_type := "chain"; task_workflow_id := None |}.

(** The key a token of [run] stands for: the first piece of its split. *)
Definition token_key (t : string) : string := List.hd EmptyString (Py.split "=" 1 t).

(** The call that [stop] makes for a non-empty id list, and the answer of
    the engine to it. *)
Definition stop_request (ids : list string) : event :=
  if bool_decide ("all" ∈ ids) then StopAllWorkflows else StopTasks ids.

Definition stop_answer `{Env} (ids : list string) : Py.outcome (list task) :=
  if bool_decide ("all" ∈ ids) then stop_all_workflows else stop_tasks ids.

(** The events of a command that only asks the engine for its state and
    writes to the console. *)
Definition is_query_or_echo (ev : event) : bool :=
  match ev with
  | Echo _ | GetWorkers | GetQueues _ | GetTasks _ _ => true
  | _ => false
  end.

(** The task types [task_colour] has a colour for. *)
Definition known_type (t : task) : bool :=
  existsb (String.eqb (task_type t)) ["workflow"; "dag"; "task"].

(** The task records [info] has a line for: the type is a known one, and a
    task of type [workflow] carries its [workflow_id]. *)
Definition printable (t : task) : bool :=
  known_type t
  && match task_workflow_id t with
     | Some _ => true
     | None => negb (String.eqb (task_type t) "workflow")
     end.

(** The two task states [info] asks for. *)
Definition info_status (task_status : string) : Prop :=
  task_status = "active" \/ task_status = "scheduled".

(** The engine answers every question [info] has about the worker [name],
    with task records that can be printed. *)
Definition worker_answers `{Env} (name : string) : Prop :=
  (exists qs, get_queues name = Py.Ok qs)
  /\ forall task_status, info_status task_status ->
       exists ts, get_tasks name task_status = Py.Ok ts
                  /\ Forall (fun t => printable t = true) ts.

(** The task records of an answer of [get_tasks]. *)
Definition answered_tasks (answer : Py.outcome (list task)) : list task :=
  match answer with
  | Py.Ok ts => ts
  | Py.Raise _ => []
  end.

(** The [KeyError] a task record without a line ends [info] with. *)
Definition task_key_error (t : task) : Py.exn :=
  if known_type t then Py.key_error "workflow_id" else Py.key_error (task_type t).

(** * Properties *)

(** ** The built-ins on concrete inputs *)

Example split_at_first_only : Py.split "=" 1 "k=v1=v2" = ["k"; "v1=v2"].
Proof. reflexivity. Qed.

Example split_without_separator : Py.split "=" 1 "bad" = ["bad"].
Proof. reflexivity. Qed.

Example split_keeps_empty_pieces : Py.split "," (-1) ",a,," = [""; "a"; ""; ""].
Proof. reflexivity. Qed.

Example str_int_decimal :
  Py.str_int 5672 = "5672" /\ Py.str_int 0 = "0" /\ Py.str_int (-3) = "-3".
Proof. repeat split; reflexivity. Qed.

Example ljust_pads_never_cuts : Py.ljust 6 "ab" = "ab    " /\ Py.ljust 1 "abc" = "abc".
Proof. split; reflexivity. Qed.

Example dict_keeps_last_value :
  Py.dict [["a"; "1"]; ["b"; "2"]; ["a"; "3"]] = Py.Ok {[ "a" := "3"; "b" := "2" ]}.
Proof. vm_compute. reflexivity. Qed.

Example dict_rejects_short_element :
  Py.dict [["a"; "1"]; ["bad"]]
  = Py.Raise (Py.mk_exn Py.ValueError
                "dictionary update sequence element #1 has length 1; 2 is required").
Proof. vm_compute. reflexivity. Qed.

(** [repr] on plain text, on a key with an apostrophe, on one with both
    quotes, and on characters that are escaped. *)
Example repr_plain : Py.repr "chain" = "'chain'".
Proof. reflexivity. Qed.

Example repr_apostrophe :
  Py.repr "it's" = String Py.double_quote ("it's" +:+ String Py.double_quote EmptyString).
Proof. reflexivity. Qed.

Example repr_both_quotes :
  Py.repr ("a'b" +:+ String Py.double_quote "c")
  = "'a" +:+ String Py.backslash ("'b" +:+ String Py.double_quote "c'").
Proof. reflexivity. Qed.

Example repr_escapes :
  Py.repr (String "010" (String "001" (String "127" (String "160" (String "233"
             (String Py.backslash EmptyString))))))
  = "'" +:+ String Py.backslash ("n" +:+ String Py.backslash ("x01"
        +:+ String Py.backslash ("x7f" +:+ String Py.backslash ("xa0"
        +:+ String "233" (String Py.backslash (String Py.backslash "'")))))).
Proof. reflexivity. Qed.

(** The whole output of [info] for two workers, the first with an active
    workflow. *)
Example info_demo :
  @Cli.info demo_env
  = ([ GetWorkers; Echo (String "010" EmptyString);
       Echo "Worker: celery@a";
       Echo "> pid:               4711";
       Echo "> processes:         4712, 4713";
       Echo "> broker:            amqp://localhost:5672//";
       GetQueues "celery@a";
       Echo "> queues:            workflow, dag, task";
       GetTasks "celery@a" "active";
       Echo "> active:            demo (workflow) [wf-1] <t-1>";
       GetTasks "celery@a" "scheduled";
       Echo (String "010" EmptyString);
       Echo "Worker: celery@b";
       Echo "> pid:               4711";
       Echo "> processes:         4712, 4713";
       Echo "> broker:            amqp://localhost:5672//";
       GetQueues "celery@b";
       Echo "> queues:            workflow, dag, task";
       GetTasks "celery@b" "active";
       Echo "> active:            demo (workflow) [wf-1] <t-1>";
       GetTasks "celery@b" "scheduled";
       Echo (String "010" EmptyString) ], Py.Ok tt).
Proof. vm_compute. reflexivity. Qed.

(** [run] reports a [WorkflowArgumentError] of [run_workflow] on the
    console and returns. *)
Example run_reports_argument_error :
  @Cli.run (with_run_workflow_error demo_env) false "demo" ["a=1"]
  = ([ RunWorkflow "demo" true {[ "a" := "1" ]};
       Echo "An error occurred when trying to run the workflow:";
       Echo ">> missing argument" ], Py.Ok tt).
Proof. vm_compute. reflexivity. Qed.

(** ** Splitting and joining strings *)

#[local] Arguments String.append !s1 s2 : simpl nomatch.

Section SplitFacts.
Variable sep : ascii.

Lemma count_append (a b : string) :
  Py.count sep (a +:+ b) = (Py.count sep a + Py.count sep b)%nat.
Proof. induction a as [|x a IH]; simpl; [reflexivity | rewrite IH; lia]. Qed.

Lemma count_sep_cons (s : string) : Py.count sep (String sep s) = S (Py.count sep s).
Proof. simpl. now rewrite Ascii.eqb_refl. Qed.

(** A string without the separator is not cut. *)
Lemma split_no_sep (m : Z) (s : string) :
  Py.count sep s = 0%nat -> Py.split sep m s = [s].
Proof.
  revert m. induction s as [|c s IH]; intros m Hc; simpl.
  - now destruct (m =? 0).
  - destruct (m =? 0); [reflexivity|].
    simpl in Hc. destruct (Ascii.eqb c sep); [discriminate|].
    now rewrite IH.
Qed.

(** With [maxsplit=1] the cut is at the first separator. *)
Lemma split_first (k v : string) :
  Py.count sep k = 0%nat -> Py.split sep 1 (k +:+ String sep v) = [k; v].
Proof.
  induction k as [|c k IH]; intros Hc; simpl.
  - rewrite Ascii.eqb_refl. simpl. now destruct v.
  - simpl in Hc. destruct (Ascii.eqb c sep); [discriminate|].
    now rewrite IH.
Qed.

(** Every string with a separator has a first one. *)
Lemma first_sep (s : string) :
  (0 < Py.count sep s)%nat ->
  exists k v, s = k +:+ String sep v /\ Py.count sep k = 0%nat.
Proof.
  induction s as [|c s IH]; simpl; intros Hc; [lia|].
  destruct (Ascii.eqb_spec c sep) as [->|Hne].
  - now exists EmptyString, s.
  - destruct (IH Hc) as (k & v & -> & Hk).
    exists (String c k), v. split; [reflexivity|].
    simpl. destruct (Ascii.eqb_spec c sep); [contradiction | exact Hk].
Qed.

(** The pieces of [split(sep, 1)]: one when there is no separator, two
    otherwise. *)
Lemma split_once_length (s : string) :
  length (Py.split sep 1 s) = (if Nat.eqb (Py.count sep s) 0 then 1 else 2)%nat.
Proof.
  destruct (Nat.eqb_spec (Py.count sep s) 0) as [Hz|Hnz].
  - now rewrite split_no_sep.
  - destruct (first_sep s) as (k & v & -> & Hk); [lia|].
    now rewrite split_first.
Qed.

(** Where a string is cut in two, the decomposition is the one at the first
    separator. *)
Lemma first_sep_unique (k v k' v' : string) :
  Py.count sep k = 0%nat -> Py.count sep k' = 0%nat ->
  k +:+ String sep v = k' +:+ String sep v' -> k = k' /\ v = v'.
Proof.
  intros Hk Hk' Heq.
  assert (Hs : [k; v] = [k'; v']).
  { rewrite <- (split_first k v Hk), <- (split_first k' v' Hk'). now rewrite Heq. }
  now inversion Hs.
Qed.

Lemma push_front_join (c : ascii) (ps : list string) :
  ps <> [] ->
  Py.join (String sep EmptyString) (Py.push_front c ps)
  = String c (Py.join (String sep EmptyString) ps).
Proof. destruct ps as [|p [|q ps]]; simpl; intros Hne; congruence. Qed.

Lemma split_nonempty (m : Z) (s : string) : Py.split sep m s <> [].
Proof.
  revert m. induction s as [|c s IH]; intros m; simpl.
  - now destruct (m =? 0).
  - destruct (m =? 0); [discriminate|].
    destruct (Ascii.eqb c sep); [discriminate|].
    specialize (IH m). now destruct (Py.split sep m s).
Qed.

(** Joining the pieces with the separator gives the string back, whatever
    the bound on the number of cuts. *)
Lemma join_split (m : Z) (s : string) :
  Py.join (String sep EmptyString) (Py.split sep m s) = s.
Proof.
  revert m. induction s as [|c s IH]; intros m; simpl.
  - now destruct (m =? 0).
  - destruct (m =? 0); [reflexivity|].
    destruct (Ascii.eqb_spec c sep) as [->|Hne].
    + specialize (IH (m - 1)). pose proof (split_nonempty (m - 1) s) as Hn.
      destruct (Py.split sep (m - 1) s) as [|p ps]; [congruence|].
      simpl in *. now rewrite IH.
    + rewrite push_front_join by apply split_nonempty. now rewrite IH.
Qed.

(** Without a bound, no piece contains the separator: the string is cut at
    every one of them. *)
Lemma split_all_pieces (m : Z) (s : string) :
  m < 0 -> Forall (fun p => Py.count sep p = 0%nat) (Py.split sep m s).
Proof.
  revert m. induction s as [|c s IH]; intros m Hm; simpl.
  - destruct (Z.eqb_spec m 0); [lia|]. now repeat constructor.
  - destruct (Z.eqb_spec m 0); [lia|].
    destruct (Ascii.eqb_spec c sep) as [->|Hne].
    + constructor; [reflexivity|]. apply IH. lia.
    + specialize (IH m Hm). destruct (Py.split sep m s) as [|p ps]; simpl.
      * repeat constructor. simpl. now destruct (Ascii.eqb_spec c sep).
      * inversion IH; subst. constructor; [|assumption].
        simpl. destruct (Ascii.eqb_spec c sep); [contradiction | assumption].
Qed.

Lemma split_all_length (m : Z) (s : string) :
  m < 0 -> length (Py.split sep m s) = S (Py.count sep s).
Proof.
  revert m. induction s as [|c s IH]; intros m Hm; simpl.
  - now destruct (Z.eqb_spec m 0); [lia|].
  - destruct (Z.eqb_spec m 0); [lia|].
    destruct (Ascii.eqb_spec c sep) as [->|Hne]; simpl.
    + rewrite IH by lia. reflexivity.
    + specialize (IH m Hm). pose proof (split_nonempty m s) as Hn.
      destruct (Py.split sep m s) as [|p ps]; [congruence|]. simpl in *. lia.
Qed.

End SplitFacts.

(** ** Building a dict from a sequence of pairs *)

Section DictFacts.
Implicit Types (seq : list (list string)) (d : gmap string string).

Lemma dict_update_app i pre post d :
  Py.dict_update i (pre ++ post) d =
  match Py.dict_update i pre d with
  | Py.Ok d' => Py.dict_update (i + length pre) post d'
  | Py.Raise e => Py.Raise e
  end.
Proof.
  revert i d. induction pre as [|e pre IH]; intros i d; simpl.
  - now rewrite Nat.add_0_r.
  - destruct e as [|a [|b [|c e]]]; try reflexivity.
    rewrite IH. now replace (S i + length pre)%nat with (i + S (length pre))%nat by lia.
Qed.

(** Every element has two items: the dict is built. *)
Lemma dict_update_pairs i seq d :
  Forall (fun e => length e = 2%nat) seq -> exists d', Py.dict_update i seq d = Py.Ok d'.
Proof.
  intros Hall. revert i d. induction Hall as [|e seq He _ IH]; intros i d; simpl.
  - now exists d.
  - destruct e as [|a [|b [|c e]]]; try discriminate. apply IH.
Qed.

(** An element with a single item, all the elements before it being pairs:
    [ValueError] at the index of that element. *)
Lemma dict_update_short i pre a post d :
  Forall (fun e => length e = 2%nat) pre ->
  Py.dict_update i (pre ++ [a] :: post) d
  = Py.Raise (Py.dict_length_error (i + length pre) 1).
Proof.
  intros Hpre. rewrite dict_update_app.
  destruct (dict_update_pairs i pre d Hpre) as [d' ->]. reflexivity.
Qed.

(** A key that no element carries keeps what the dict had for it. *)
Lemma dict_update_other i seq d d' k :
  Py.dict_update i seq d = Py.Ok d' ->
  (forall v, [k; v] ∉ seq) ->
  d' !! k = d !! k.
Proof.
  revert i d. induction seq as [|e seq IH]; intros i d; simpl.
  - intros [= ->] _. reflexivity.
  - destruct e as [|a [|b [|c e]]]; try discriminate.
    intros Hd Hk. rewrite (IH _ _ Hd).
    + apply lookup_insert_ne. intros ->. apply (Hk b). left.
    + intros v Hin. apply (Hk v). now right.
Qed.

(** The last element with a given key decides its value. *)
Lemma dict_update_last i pre k v post d d' :
  Py.dict_update i (pre ++ [k; v] :: post) d = Py.Ok d' ->
  (forall v', [k; v'] ∉ post) ->
  d' !! k = Some v.
Proof.
  rewrite dict_update_app. destruct (Py.dict_update i pre d) as [d0|]; [|discriminate].
  simpl. intros Hd Hk. rewrite (dict_update_other _ _ _ _ _ Hd Hk).
  apply lookup_insert_eq.
Qed.

End DictFacts.

(** The items [run] hands to [dict]. *)
Lemma split_tokens_pairs (args : list string) :
  Forall (fun t => (0 < Py.count "=" t)%nat) args ->
  Forall (fun e => length e = 2%nat) (map (Py.split "=" 1) args).
Proof.
  intros Hall. apply Forall_map. eapply Forall_impl; [exact Hall|].
  intros t Ht. cbv beta in *. rewrite split_once_length.
  destruct (Nat.eqb_spec (Py.count "=" t) 0); [lia | reflexivity].
Qed.

(** The first token without ['='] in a list that has one. *)
Lemma first_without_eq (args : list string) :
  (exists t, t ∈ args /\ Py.count "=" t = 0%nat) ->
  exists pre t post,
    args = pre ++ t :: post /\ Py.count "=" t = 0%nat
    /\ Forall (fun t' => (0 < Py.count "=" t')%nat) pre.
Proof.
  induction args as [|a args IH]; intros (t & Hin & Ht).
  - inversion Hin.
  - destruct (Nat.eq_dec (Py.count "=" a) 0%nat) as [Ha|Ha].
    + exists [], a, args. repeat split; [assumption | constructor].
    + destruct IH as (pre & t' & post & -> & Ht' & Hpre).
      { exists t. split; [|assumption].
        apply elem_of_cons in Hin as [->|Hin]; [congruence | assumption]. }
      exists (a :: pre), t', post. repeat split; [assumption|].
      constructor; [lia | assumption].
Qed.

(** ** The monad *)

Lemma for_each_echo_calls {A : Type} (l : list A) (f : A -> string) :
  engine_calls (trace (for_each l (fun x => echo (f x)))) = []
  /\ result (for_each l (fun x => echo (f x))) = Py.Ok tt.
Proof. induction l as [|x l [IHt IHr]]; simpl; [easy|]. now rewrite IHt, IHr. Qed.

(** A loop whose first iterations return reaches the next one. *)
Lemma for_each_reach {A : Type} (body : A -> M unit) (pre : list A) (x : A) (post : list A) :
  Forall (fun w => result (body w) = Py.Ok tt) pre ->
  exists rest,
    trace (for_each (pre ++ x :: post) body)
    = concat (map (fun w => trace (body w)) pre) ++ trace (body x) ++ rest.
Proof.
  induction 1 as [|w pre Hw _ [rest IH]]; simpl.
  - unfold bind. destruct (body x) as [tr [[]|e]]; simpl.
    + now exists (trace (for_each post body)).
    + exists []. now rewrite app_nil_r.
  - unfold bind. destruct (body w) as [tr [[]|e]]; simpl in *; [|discriminate].
    exists rest. rewrite IH. now rewrite <- app_assoc.
Qed.

(** ** The [run] command *)

Section RunFacts.
Context `{Env}.

(** What reaches [run_workflow]: one call when the mapping could be built,
    none otherwise. *)
Lemma run_workflow_calls_run (keep_data : bool) (name : string) (args : list string) :
  run_workflow_calls (trace (Cli.run keep_data name args))
  = match Py.dict (map (Py.split "=" 1) args) with
    | Py.Ok d => [(name, negb keep_data, d)]
    | Py.Raise _ => []
    end.
Proof.
  unfold Cli.run, try_except, bind, lift, call, ret. simpl.
  destruct (Py.dict _) as [d|e]; simpl.
  - destruct (run_workflow _ _ _) as [wid|e]; simpl; [reflexivity|].
    destruct (decide _); reflexivity.
  - destruct (decide _); reflexivity.
Qed.

(** An exception raised while the mapping is built leaves [run] as it is,
    unless it is a [WorkflowArgumentError]. *)
Lemma run_dict_raises (keep_data : bool) (name : string) (args : list string) (e : Py.exn) :
  Py.dict (map (Py.split "=" 1) args) = Py.Raise e ->
  Py.exc_class e <> Py.WorkflowArgumentError ->
  Cli.run keep_data name args = ([], Py.Raise e).
Proof.
  intros Hd Hc. unfold Cli.run, try_except, bind, lift. rewrite Hd. simpl.
  destruct (decide _); [contradiction | reflexivity].
Qed.

(** The mapping built from tokens that all have an ['=']. *)
Lemma run_arguments (args : list string) :
  Forall (fun t => (0 < Py.count "=" t)%nat) args ->
  exists d, Py.dict (map (Py.split "=" 1) args) = Py.Ok d.
Proof. intros Hall. apply dict_update_pairs. now apply split_tokens_pairs. Qed.

(** In that mapping the last token with a given key decides the value. *)
Lemma run_arguments_last (pre : list string) (t : string) (post : list string)
    (k v : string) (d : gmap string string) :
  Py.dict (map (Py.split "=" 1) (pre ++ t :: post)) = Py.Ok d ->
  Py.split "=" 1 t = [k; v] ->
  (forall t' v', t' ∈ post -> Py.split "=" 1 t' <> [k; v']) ->
  d !! k = Some v.
Proof.
  intros Hd Ht Hpost. unfold Py.dict in Hd.
  rewrite map_app in Hd. simpl in Hd. rewrite Ht in Hd.
  apply (dict_update_last _ _ _ _ _ _ _ Hd).
  intros v' Hin. apply list_elem_of_fmap in Hin as (t' & Heq & Hin').
  now apply (Hpost t' v' Hin').
Qed.

End RunFacts.

(** C1 (amended).  When the token list of [run] has a token without ['='],
    the invocation fails with the [ValueError] that [dict] raises at the
    first such token: its index [j] is in the message, the token at [j] has
    no ['='] and every token before it has one.  The handler for
    [WorkflowArgumentError] does not catch it, so it reaches the caller,
    nothing is echoed, and [run_workflow] is not invoked. *)
Theorem run_malformed_token `{Env} (keep_data : bool) (name : string) (args : list string) :
  (exists t, t ∈ args /\ Py.count "=" t = 0%nat) ->
  exists j t,
    args !! j = Some t /\ Py.count "=" t = 0%nat
    /\ Forall (fun t' => (0 < Py.count "=" t')%nat) (take j args)
    /\ Cli.run keep_data name args = ([], Py.Raise (Py.dict_length_error j 1))
    /\ raises Py.ValueError (Cli.run keep_data name args)
    /\ run_workflow_calls (trace (Cli.run keep_data name args)) = [].
Proof.
  intros Hbad.
  destruct (first_without_eq args Hbad) as (pre & t & post & -> & Ht & Hpre).
  assert (Hd : Py.dict (map (Py.split "=" 1) (pre ++ t :: post))
               = Py.Raise (Py.dict_length_error (length pre) 1)).
  { unfold Py.dict. rewrite map_app. simpl. rewrite (split_no_sep _ _ _ Ht).
    rewrite dict_update_short by now apply split_tokens_pairs.
    now rewrite length_map. }
  assert (Hrun : Cli.run keep_data name (pre ++ t :: post)
                 = ([], Py.Raise (Py.dict_length_error (length pre) 1))).
  { apply run_dict_raises; [exact Hd | discriminate]. }
  exists (length pre), t. repeat split.
  - now rewrite list_lookup_middle.
  - exact Ht.
  - now rewrite take_app_length.
  - exact Hrun.
  - rewrite Hrun. now eexists.
  - now rewrite Hrun.
Qed.

Lemma run_malformed_token_witness :
  (exists t, t ∈ ["a=1"; "bad1"; "b=2"; "bad2"] /\ Py.count "=" t = 0%nat)
  /\ @Cli.run demo_env false "demo" ["a=1"; "bad1"; "b=2"; "bad2"]
     = ([], Py.Raise (Py.mk_exn Py.ValueError
                        "dictionary update sequence element #1 has length 1; 2 is required"))
  /\ exists j t,
       ["a=1"; "bad1"; "b=2"; "bad2"] !! j = Some t /\ Py.count "=" t = 0%nat
       /\ Forall (fun t' => (0 < Py.count "=" t')%nat) (take j ["a=1"; "bad1"; "b=2"; "bad2"])
       /\ @Cli.run demo_env false "demo" ["a=1"; "bad1"; "b=2"; "bad2"]
          = ([], Py.Raise (Py.dict_length_error j 1))
       /\ raises Py.ValueError (@Cli.run demo_env false "demo" ["a=1"; "bad1"; "b=2"; "bad2"])
       /\ run_workflow_calls
            (trace (@Cli.run demo_env false "demo" ["a=1"; "bad1"; "b=2"; "bad2"])) = [].
Proof.
  assert (Hbad : exists t, t ∈ ["a=1"; "bad1"; "b=2"; "bad2"] /\ Py.count "=" t = 0%nat).
  { exists "bad2". split; [right; right; right; left | reflexivity]. }
  split; [exact Hbad|]. split; [reflexivity|].
  exact (@run_malformed_token demo_env false "demo" ["a=1"; "bad1"; "b=2"; "bad2"] Hbad).
Defined.

(** C1 as the spec states it fails: on the token ["bad"] the exception that
    leaves [run] is a [ValueError], not a [WorkflowArgumentError], and the
    handler's report is not echoed. *)
Lemma run_bad_token_not_argument_error :
  Py.count "=" "bad" = 0%nat
  /\ @Cli.run demo_env false "demo" ["bad"]
     = ([], Py.Raise (Py.mk_exn Py.ValueError
                        "dictionary update sequence element #0 has length 1; 2 is required"))
  /\ ~ raises Py.WorkflowArgumentError (@Cli.run demo_env false "demo" ["bad"]).
Proof.
  split; [reflexivity|]. split; [reflexivity|].
  intros (e & He & Hc). simpl in He. injection He as <-. discriminate.
Qed.

(** C3 (amended).  For the tokens ["a=1"] and ["b=2"], [run] passes the
    mapping {"a": "1", "b": "2"} to [run_workflow]; for every list of
    tokens with exactly one ['='] each, the mapping passed sends the part
    before the ['='] of a token to the part after the ['='] of the last
    token with that same part before the ['=']. *)
Theorem run_arguments_mapping `{Env} (keep_data : bool) (name : string) :
  run_workflow_calls (trace (Cli.run keep_data name ["a=1"; "b=2"]))
  = [(name, negb keep_data, {[ "a" := "1"; "b" := "2" ]})]
  /\ forall tokens : list string,
       Forall (fun t => Py.count "=" t = 1%nat) tokens ->
       exists d : gmap string string,
         run_workflow_calls (trace (Cli.run keep_data name tokens))
         = [(name, negb keep_data, d)]
         /\ forall pre k v post,
              tokens = pre ++ (k +:+ "=" +:+ v) :: post ->
              (forall v', (k +:+ "=" +:+ v') ∉ post) ->
              d !! k = Some v.
Proof.
  split.
  - rewrite run_workflow_calls_run. vm_compute. reflexivity.
  - intros tokens Hone.
    destruct (run_arguments tokens) as [d Hd].
    { eapply Forall_impl; [exact Hone|]. intros t Ht. cbv beta in *. lia. }
    exists d. split.
    + rewrite run_workflow_calls_run. now rewrite Hd.
    + intros pre k v post -> Hlast.
      assert (Hk : Py.count "=" k = 0%nat).
      { apply Forall_app in Hone as [_ Hone]. apply Forall_cons in Hone as [Hone _].
        change (k +:+ "=" +:+ v) with (k +:+ String "="%char v) in Hone.
        rewrite count_append, count_sep_cons in Hone. lia. }
      apply (run_arguments_last pre (k +:+ "=" +:+ v) post k v d Hd).
      * now apply (split_first "="%char k v).
      * intros t' v' Hin Hsplit. apply (Hlast v').
        rewrite <- (join_split "=" 1 t') in Hin. now rewrite Hsplit in Hin.
Qed.

Lemma run_arguments_mapping_witness :
  Forall (fun t => Py.count "=" t = 1%nat) ["x=1"; "y=2"; "x=3"]
  /\ exists d : gmap string string,
       run_workflow_calls (trace (@Cli.run demo_env true "demo" ["x=1"; "y=2"; "x=3"]))
       = [("demo", false, d)]
       /\ d !! "x" = Some "3".
Proof.
  assert (Hone : Forall (fun t => Py.count "=" t = 1%nat) ["x=1"; "y=2"; "x=3"]).
  { repeat constructor. }
  split; [exact Hone|].
  destruct (proj2 (@run_arguments_mapping demo_env true "demo") _ Hone) as (d & Hcall & Hmap).
  exists d. split; [exact Hcall|].
  apply (Hmap ["x=1"; "y=2"] "x" "3" []); [reflexivity|].
  intros v' Hin. inversion Hin.
Defined.

(** C3 as the spec states it fails when a key comes twice: both tokens have
    exactly one ['='], yet the mapping does not send ["a"], the part before
    the ['='] of ["a=1"], to ["1"]. *)
Lemma run_duplicate_key_first_value_lost :
  Forall (fun t => Py.count "=" t = 1%nat) ["a=1"; "a=2"]
  /\ "a=1" ∈ ["a=1"; "a=2"]
  /\ "a=1" = "a" +:+ "=" +:+ "1"
  /\ exists d : gmap string string,
       run_workflow_calls (trace (@Cli.run demo_env false "demo" ["a=1"; "a=2"]))
       = [("demo", true, d)]
       /\ d !! "a" <> Some "1".
Proof.
  split; [repeat constructor|]. split; [left|]. split; [reflexivity|].
  exists {[ "a" := "2" ]}. split; [vm_compute; reflexivity|].
  vm_compute. discriminate.
Qed.

(** C4 (amended).  [run] hands the negation of the [--keep-data] flag to
    [run_workflow] as its second argument: with the flag on the command
    line [run_workflow] receives [False], without it [True]. *)
Theorem run_keep_data_negated `{Env} (name : string) (args : list string)
    (d : gmap string string) :
  Py.dict (map (Py.split "=" 1) args) = Py.Ok d ->
  run_workflow_calls (trace (Cli.run_command true name args)) = [(name, false, d)]
  /\ run_workflow_calls (trace (Cli.run_command false name args)) = [(name, true, d)].
Proof.
  intros Hd. unfold Cli.run_command. rewrite !run_workflow_calls_run, Hd. now split.
Qed.

Lemma run_keep_data_negated_witness :
  Py.dict (map (Py.split "=" 1) ["x=1"]) = Py.Ok {[ "x" := "1" ]}
  /\ run_workflow_calls (trace (@Cli.run_command demo_env true "demo" ["x=1"]))
     = [("demo", false, {[ "x" := "1" ]})]
  /\ run_workflow_calls (trace (@Cli.run_command demo_env false "demo" ["x=1"]))
     = [("demo", true, {[ "x" := "1" ]})].
Proof.
  assert (Hd : Py.dict (map (Py.split "=" 1) ["x=1"]) = Py.Ok {[ "x" := "1" ]}).
  { vm_compute. reflexivity. }
  split; [exact Hd|].
  exact (@run_keep_data_negated demo_env "demo" ["x=1"] _ Hd).
Defined.

(** C4 as the spec states it fails: with [--keep-data] given, the second
    argument that [run_workflow] receives is [False]. *)
Lemma run_keep_data_given_passes_false :
  run_workflow_calls (trace (@Cli.run_command demo_env true "demo" []))
  = [("demo", false, ∅)]
  /\ run_workflow_calls (trace (@Cli.run_command demo_env true "demo" []))
     <> [("demo", true, ∅)].
Proof.
  assert (Hc : run_workflow_calls (trace (@Cli.run_command demo_env true "demo" []))
               = [("demo", false, ∅)]) by (vm_compute; reflexivity).
  split; [exact Hc|]. rewrite Hc. intros [=].
Qed.

(** C10.  A token with more than one ['='] is cut at the first one only:
    ["k=v1=v2"] gives the key ["k"] the value ["v1=v2"]; and of two tokens
    with the same key, the later one decides the value. *)
Theorem run_token_first_eq_last_wins `{Env} (keep_data : bool) (name : string) :
  (forall t : string,
     (1 < Py.count "=" t)%nat ->
     exists k v,
       t = k +:+ "=" +:+ v /\ Py.count "=" k = 0%nat /\ (0 < Py.count "=" v)%nat
       /\ Py.split "=" 1 t = [k; v])
  /\ run_workflow_calls (trace (Cli.run keep_data name ["k=v1=v2"]))
     = [(name, negb keep_data, {[ "k" := "v1=v2" ]})]
  /\ (forall (pre : list string) t1 mid t2 post k v1 v2,
        Forall (fun t => (0 < Py.count "=" t)%nat) (pre ++ t1 :: mid ++ t2 :: post) ->
        Py.split "=" 1 t1 = [k; v1] ->
        Py.split "=" 1 t2 = [k; v2] ->
        (forall t' v', t' ∈ post -> Py.split "=" 1 t' <> [k; v']) ->
        exists d : gmap string string,
          run_workflow_calls (trace (Cli.run keep_data name (pre ++ t1 :: mid ++ t2 :: post)))
          = [(name, negb keep_data, d)]
          /\ d !! k = Some v2).
Proof.
  split; [|split].
  - intros t Ht.
    destruct (first_sep "=" t) as (k & v & -> & Hk); [lia|].
    exists k, v. rewrite count_append, count_sep_cons, Hk in Ht.
    repeat split; [assumption | lia | now apply split_first].
  - rewrite run_workflow_calls_run. vm_compute. reflexivity.
  - intros pre t1 mid t2 post k v1 v2 Hall _ Ht2 Hpost.
    destruct (run_arguments _ Hall) as [d Hd].
    exists d. split.
    + rewrite run_workflow_calls_run. now rewrite Hd.
    + replace (pre ++ t1 :: mid ++ t2 :: post) with ((pre ++ t1 :: mid) ++ t2 :: post) in Hd
        by now rewrite <- app_assoc.
      exact (run_arguments_last _ _ _ _ _ _ Hd Ht2 Hpost).
Qed.

Lemma run_token_first_eq_last_wins_witness :
  (1 < Py.count "=" "k=v1=v2")%nat
  /\ (exists k v, "k=v1=v2" = k +:+ "=" +:+ v /\ Py.count "=" k = 0%nat
                  /\ (0 < Py.count "=" v)%nat /\ Py.split "=" 1 "k=v1=v2" = [k; v])
  /\ Forall (fun t => (0 < Py.count "=" t)%nat) ["k=1"; "j=0"; "k=2"]
  /\ exists d : gmap string string,
       run_workflow_calls (trace (@Cli.run demo_env false "demo" ["k=1"; "j=0"; "k=2"]))
       = [("demo", true, d)]
       /\ d !! "k" = Some "2".
Proof.
  destruct (@run_token_first_eq_last_wins demo_env false "demo") as (Hfirst & _ & Hlast).
  assert (Hcount : (1 < Py.count "=" "k=v1=v2")%nat) by (vm_compute; lia).
  assert (Hall : Forall (fun t => (0 < Py.count "=" t)%nat) ["k=1"; "j=0"; "k=2"]).
  { repeat constructor. }
  split; [exact Hcount|]. split; [exact (Hfirst _ Hcount)|]. split; [exact Hall|].
  apply (Hlast [] "k=1" ["j=0"] "k=2" [] "k" "1" "2" Hall); [reflexivity | reflexivity |].
  intros t' v' Hin. inversion Hin.
Defined.

(** ** The [stop] command *)

Section StopFacts.
Context `{Env}.

Lemma engine_calls_app (tr tr' : list event) :
  engine_calls (tr ++ tr') = engine_calls tr ++ engine_calls tr'.
Proof. apply List.filter_app. Qed.

Lemma length_positive_cons {A : Type} (x : A) (l : list A) :
  (Z.of_nat (length (x :: l)) =? 0) = false /\ (Z.of_nat (length (x :: l)) >? 0) = true.
Proof. split; [apply Z.eqb_neq | apply Z.gtb_lt]; simpl length; lia. Qed.

(** With ['all'] among the ids, [stop] asks for all workflows to stop and
    the ids play no further part. *)
Lemma stop_all (ids : list string) :
  "all" ∈ ids ->
  Cli.stop ids
  = (let* tasks_stopped := call StopAllWorkflows stop_all_workflows in
     if Z.of_nat (length tasks_stopped) >? 0 then
       for_each tasks_stopped (fun t => echo (Cli.stop_line t))
     else echo "Could not find the specified dag or workflow").
Proof.
  intros Hall. unfold Cli.stop.
  destruct ids as [|i ids]; [inversion Hall|].
  rewrite (proj1 (length_positive_cons i ids)).
  now rewrite bool_decide_eq_true_2.
Qed.

Lemma stop_ids (ids : list string) :
  ids <> [] -> "all" ∉ ids ->
  Cli.stop ids
  = (let* tasks_stopped := call (StopTasks ids) (stop_tasks ids) in
     if Z.of_nat (length tasks_stopped) >? 0 then
       for_each tasks_stopped (fun t => echo (Cli.stop_line t))
     else echo "Could not find the specified dag or workflow").
Proof.
  intros Hne Hall. unfold Cli.stop.
  destruct ids as [|i ids]; [congruence|].
  rewrite (proj1 (length_positive_cons i ids)).
  now rewrite bool_decide_eq_false_2.
Qed.

(** After the call to the engine, [stop] only writes to the console. *)
Lemma stop_report_calls (ev : event) (answer : Py.outcome (list task)) :
  engine_calls (trace (let* tasks_stopped := call ev answer in
                       if Z.of_nat (length tasks_stopped) >? 0 then
                         for_each tasks_stopped (fun t => echo (Cli.stop_line t))
                       else echo "Could not find the specified dag or workflow"))
  = engine_calls [ev].
Proof.
  unfold bind, call. destruct answer as [[|t tasks]|e]; [reflexivity| |reflexivity].
  rewrite (proj2 (length_positive_cons t tasks)). unfold trace at 1. unfold fst.
  rewrite engine_calls_app.
  rewrite (proj1 (for_each_echo_calls (t :: tasks) Cli.stop_line)).
  apply app_nil_r.
Qed.

(** An empty answer is reported on the console, and [stop] returns. *)
Lemma stop_report_empty (ev : event) :
  (let* tasks_stopped := call ev (Py.Ok []) in
   if Z.of_nat (length tasks_stopped) >? 0 then
     for_each tasks_stopped (fun t => echo (Cli.stop_line t))
   else echo "Could not find the specified dag or workflow")
  = ([ev; Echo "Could not find the specified dag or workflow"], Py.Ok tt).
Proof. reflexivity. Qed.

End StopFacts.

(** Nothing in the registry is targeted: the Stop Coordinator of the spec
    answers with the empty list. *)
Lemma spec_stop_nothing (matches : task -> string -> bool) (registry : list task)
    (ids : list string) :
  Forall (fun t => targeted matches ids t = false) registry ->
  (if bool_decide ("all" ∈ ids) then spec_stop_all_workflows registry
   else spec_stop_tasks matches registry ids) = [].
Proof.
  unfold targeted, spec_stop_all_workflows, spec_stop_tasks.
  induction 1 as [|t registry Ht _ IH]; [now destruct (bool_decide _)|].
  destruct (bool_decide _); simpl; now rewrite Ht.
Qed.

(** C5.  With a non-empty id list, [stop] calls [stop_all_workflows()] when
    ['all'] is among the ids, and [stop_tasks] with the ids as given
    otherwise; it makes no other call to the engine. *)
Theorem stop_dispatch `{Env} (ids : list string) :
  ids <> [] ->
  ("all" ∈ ids -> engine_calls (trace (Cli.stop ids)) = [StopAllWorkflows])
  /\ ("all" ∉ ids -> engine_calls (trace (Cli.stop ids)) = [StopTasks ids]).
Proof.
  intros Hne. split; intros Hall.
  - rewrite (stop_all ids Hall). apply stop_report_calls.
  - rewrite (stop_ids ids Hne Hall). apply stop_report_calls.
Qed.

Lemma stop_dispatch_witness :
  ((["wf-7"; "all"] <> []) /\ ("all" ∈ ["wf-7"; "all"])
   /\ engine_calls (trace (@Cli.stop demo_env ["wf-7"; "all"])) = [StopAllWorkflows])
  /\ ((["wf-7"; "t-1"] <> []) /\ ("all" ∉ ["wf-7"; "t-1"])
      /\ engine_calls (trace (@Cli.stop demo_env ["wf-7"; "t-1"])) = [StopTasks ["wf-7"; "t-1"]]).
Proof.
  assert (Hne1 : ["wf-7"; "all"] <> []) by discriminate.
  assert (Hne2 : ["wf-7"; "t-1"] <> []) by discriminate.
  assert (Hin : "all" ∈ ["wf-7"; "all"]) by (right; left).
  assert (Hnin : "all" ∉ ["wf-7"; "t-1"]).
  { intros Hx. repeat (apply elem_of_cons in Hx as [Hx|Hx]; [discriminate|]). inversion Hx. }
  split.
  - split; [exact Hne1|]. split; [exact Hin|].
    exact (proj1 (@stop_dispatch demo_env _ Hne1) Hin).
  - split; [exact Hne2|]. split; [exact Hnin|].
    exact (proj2 (@stop_dispatch demo_env _ Hne2) Hnin).
Defined.

(** C9.  When ['all'] is among the ids, the other ids are ignored: [stop]
    behaves as for ['all'] alone, [stop_all_workflows()] is its only call
    to the engine, and no call to [stop_tasks] is made. *)
Theorem stop_all_ignores_other_ids `{Env} (ids : list string) :
  "all" ∈ ids ->
  Cli.stop ids = Cli.stop ["all"]
  /\ engine_calls (trace (Cli.stop ids)) = [StopAllWorkflows]
  /\ forall ids', StopTasks ids' ∉ trace (Cli.stop ids).
Proof.
  intros Hall.
  assert (Hcalls : engine_calls (trace (Cli.stop ids)) = [StopAllWorkflows]).
  { rewrite (stop_all ids Hall). apply stop_report_calls. }
  split; [|split].
  - rewrite (stop_all ids Hall). symmetry. apply stop_all. left.
  - exact Hcalls.
  - intros ids' Hin.
    assert (Hin' : In (StopTasks ids') (engine_calls (trace (Cli.stop ids)))).
    { apply List.filter_In. split; [now apply list_elem_of_In | reflexivity]. }
    rewrite Hcalls in Hin'. destruct Hin' as [Heq|[]]. discriminate.
Qed.

Lemma stop_all_ignores_other_ids_witness :
  ("all" ∈ ["t-1"; "all"; "wf-9"])
  /\ @Cli.stop demo_env ["t-1"; "all"; "wf-9"] = @Cli.stop demo_env ["all"]
  /\ engine_calls (trace (@Cli.stop demo_env ["t-1"; "all"; "wf-9"])) = [StopAllWorkflows]
  /\ forall ids', StopTasks ids' ∉ trace (@Cli.stop demo_env ["t-1"; "all"; "wf-9"]).
Proof.
  assert (Hin : "all" ∈ ["t-1"; "all"; "wf-9"]) by (right; left).
  split; [exact Hin|].
  exact (@stop_all_ignores_other_ids demo_env _ Hin).
Defined.

(** C6.  When the registry holds no task that the stop request is aimed at,
    [stop] returns without an exception.  For a non-empty id list it makes
    its one call to the Stop Coordinator ([stop_all_workflows()] when
    ['all'] is among the ids, [stop_tasks(ids)] otherwise), the answer is
    the empty list, and the only thing it does with it is to echo the
    "not found" message. *)
Theorem stop_no_match_not_found (E : Env) (matches : task -> string -> bool)
    (registry : list task) (ids : list string) :
  Forall (fun t => targeted matches ids t = false) registry ->
  result (@Cli.stop (with_stop_coordinator matches registry E) ids) = Py.Ok tt
  /\ (ids <> [] ->
      (if bool_decide ("all" ∈ ids)
       then @stop_all_workflows (with_stop_coordinator matches registry E)
       else @stop_tasks (with_stop_coordinator matches registry E) ids) = Py.Ok []
      /\ @Cli.stop (with_stop_coordinator matches registry E) ids
         = ([ (if bool_decide ("all" ∈ ids) then StopAllWorkflows else StopTasks ids);
              Echo "Could not find the specified dag or workflow" ], Py.Ok tt)
      /\ echoed (trace (@Cli.stop (with_stop_coordinator matches registry E) ids))
         = ["Could not find the specified dag or workflow"]).
Proof.
  intros Hnone. pose proof (spec_stop_nothing matches registry ids Hnone) as Hempty.
  destruct ids as [|i ids]; [split; [reflexivity | congruence]|].
  assert (Hne : i :: ids <> []) by discriminate.
  destruct (decide ("all" ∈ i :: ids)) as [Hall|Hall].
  - rewrite (stop_all _ Hall). rewrite bool_decide_eq_true_2 in * by assumption.
    simpl stop_all_workflows. rewrite Hempty, stop_report_empty. now repeat split.
  - rewrite (stop_ids _ Hne Hall). rewrite bool_decide_eq_false_2 in * by assumption.
    simpl stop_tasks. rewrite Hempty, stop_report_empty. now repeat split.
Qed.

Lemma stop_no_match_not_found_witness :
  Forall (fun t => targeted (fun t i => String.eqb (task_id t) i) ["wf-7"; "t-9"] t = false)
         [demo_task]
  /\ result (@Cli.stop (with_stop_coordinator (fun t i => String.eqb (task_id t) i)
                          [demo_task] demo_env) ["wf-7"; "t-9"]) = Py.Ok tt
  /\ (["wf-7"; "t-9"] <> [])
  /\ @Cli.stop (with_stop_coordinator (fun t i => String.eqb (task_id t) i)
                  [demo_task] demo_env) ["wf-7"; "t-9"]
     = ([ StopTasks ["wf-7"; "t-9"];
          Echo "Could not find the specified dag or workflow" ], Py.Ok tt)
  /\ echoed (trace (@Cli.stop (with_stop_coordinator (fun t i => String.eqb (task_id t) i)
                                 [demo_task] demo_env) ["wf-7"; "t-9"]))
     = ["Could not find the specified dag or workflow"].
Proof.
  assert (Hnone : Forall (fun t => targeted (fun t i => String.eqb (task_id t) i)
                                     ["wf-7"; "t-9"] t = false) [demo_task]).
  { repeat constructor. }
  assert (Hne : ["wf-7"; "t-9"] <> []) by discriminate.
  destruct (stop_no_match_not_found demo_env _ _ _ Hnone) as [Hres Hrep].
  split; [exact Hnone|]. split; [exact Hres|]. split; [exact Hne|].
  destruct (Hrep Hne) as (_ & Htrace & Hecho).
  split; [exact Htrace | exact Hecho].
Defined.

(** ** The [worker] command *)

(** C7.  Without [--queues] the worker is started on the queues
    [workflow], [dag] and [task]; with [--queues q] it is started on the
    pieces of [q] between its commas: joined by commas they give [q] back,
    none of them has a comma, and there is one more piece than commas. *)
Theorem worker_queues `{Env} :
  trace (Cli.worker_command None) = [RunWorker ["workflow"; "dag"; "task"]]
  /\ forall q : string,
       exists pieces : list string,
         trace (Cli.worker_command (Some q)) = [RunWorker pieces]
         /\ Py.join "," pieces = q
         /\ Forall (fun p => Py.count "," p = 0%nat) pieces
         /\ length pieces = S (Py.count "," q).
Proof.
  split; [reflexivity|].
  intros q. exists (Py.split "," (-1) q). split; [reflexivity|].
  split; [apply join_split|].
  split; [apply split_all_pieces | apply split_all_length]; lia.
Qed.

(** ** The [info] command *)

Section InfoFacts.
Context `{Env}.

(** The first four lines of a worker's entry. *)
Lemma info_worker_head (name : string) (wd : worker_data) :
  exists tail,
    trace (Cli.info_worker (name, wd))
    = [ Echo (style "Worker:" (Some "blue") (Some true) +:+ " " +:+ style name (Some "blue") None);
        Echo (Py.ljust 20 (style "> pid:" None (Some true)) +:+ " " +:+ Py.str_int (pid (proc wd)));
        Echo (Py.ljust 20 (style "> processes:" None (Some true)) +:+ " "
              +:+ Py.join ", " (map Py.str_int (processes (proc wd))));
        Echo (Cli.broker_line (broker wd)) ] ++ tail.
Proof.
  unfold Cli.info_worker. unfold bind at 1 2 3 4. unfold echo at 1 2 3 4.
  unfold trace at 1. simpl. eexists. reflexivity.
Qed.

End InfoFacts.

(** C8.  Every worker entry that [info] gets to display has, as its fourth
    line, the heading ['> broker:'] followed by the connection descriptor
    of the worker written as [transport://hostname:port/virtual_host]. *)
Theorem info_broker_uri `{Env} (workers pre : list (string * worker_data))
    (name : string) (wd : worker_data) (post : list (string * worker_data)) :
  get_workers = Py.Ok workers ->
  workers = pre ++ (name, wd) :: post ->
  Forall (fun w => result (Cli.info_worker w) = Py.Ok tt) pre ->
  exists rest,
    trace Cli.info
    = [GetWorkers; Echo (String "010" EmptyString)]
      ++ concat (map (fun w => trace (Cli.info_worker w)) pre)
      ++ [ Echo (style "Worker:" (Some "blue") (Some true) +:+ " " +:+ style name (Some "blue") None);
           Echo (Py.ljust 20 (style "> pid:" None (Some true)) +:+ " " +:+ Py.str_int (pid (proc wd)));
           Echo (Py.ljust 20 (style "> processes:" None (Some true)) +:+ " "
                 +:+ Py.join ", " (map Py.str_int (processes (proc wd))));
           Echo (Py.ljust 20 (style "> broker:" None (Some true)) +:+ " "
                 +:+ transport (broker wd) +:+ "://" +:+ hostname (broker wd) +:+ ":"
                 +:+ Py.str_int (port (broker wd)) +:+ "/" +:+ virtual_host (broker wd)) ]
      ++ rest.
Proof.
  intros Hw -> Hpre.
  destruct (for_each_reach Cli.info_worker pre (name, wd) post Hpre) as [rest Hrest].
  destruct (info_worker_head name wd) as [tail Htail].
  exists (tail ++ rest).
  unfold Cli.info. rewrite Hw. unfold bind at 1, call. unfold trace at 1. unfold fst.
  unfold bind at 1. unfold echo at 1. unfold trace at 1. unfold fst.
  rewrite Hrest, Htail. unfold Cli.broker_line, Cli.broker_uri.
  rewrite <- !app_assoc. reflexivity.
Qed.

Lemma info_broker_uri_witness :
  @get_workers demo_env = Py.Ok ([("celery@a", demo_worker)] ++ ("celery@b", demo_worker) :: [])
  /\ Forall (fun w => result (@Cli.info_worker demo_env w) = Py.Ok tt) [("celery@a", demo_worker)]
  /\ exists rest,
       trace (@Cli.info demo_env)
       = [GetWorkers; Echo (String "010" EmptyString)]
         ++ concat (map (fun w => trace (@Cli.info_worker demo_env w)) [("celery@a", demo_worker)])
         ++ [ Echo "Worker: celery@b";
              Echo "> pid:               4711";
              Echo "> processes:         4712, 4713";
              Echo "> broker:            amqp://localhost:5672//" ]
         ++ rest.
Proof.
  assert (Hw : @get_workers demo_env
               = Py.Ok ([("celery@a", demo_worker)] ++ ("celery@b", demo_worker) :: []))
    by reflexivity.
  assert (Hpre : Forall (fun w => result (@Cli.info_worker demo_env w) = Py.Ok tt)
                        [("celery@a", demo_worker)]).
  { repeat constructor. }
  split; [exact Hw|]. split; [exact Hpre|].
  exact (@info_broker_uri demo_env _ [("celery@a", demo_worker)] "celery@b" demo_worker []
           Hw eq_refl Hpre).
Defined.

(** ** The [config] command *)

(** C2 does not hold of the code.  In the body of [config] the name
    [config] is the click command the decorator has put in the module's
    globals, which has no attribute [default]: once ['lightflow.cfg'] has
    been opened for writing, the command ends with [AttributeError];
    [lf_config.default()] is not evaluated and nothing is written. *)
Theorem config_attribute_error `{Env} :
  load_global "config" = Py.Ok (PyClickCommand "config")
  /\ Cli.config
     = match open_file "lightflow.cfg" "w" with
       | Py.Ok _ =>
           ([FileOpen "lightflow.cfg" "w"; FileClose "lightflow.cfg"],
            Py.Raise (Py.mk_exn Py.AttributeError "'Command' object has no attribute 'default'"))
       | Py.Raise e => ([FileOpen "lightflow.cfg" "w"], Py.Raise e)
       end
  /\ written (trace Cli.config) = []
  /\ (ConfigDefault ∉ trace Cli.config)
  /\ exists e, result Cli.config = Py.Raise e.
Proof.
  assert (Hglob : load_global "config" = Py.Ok (PyClickCommand "config"))
    by (vm_compute; reflexivity).
  assert (Hcfg : Cli.config
     = match open_file "lightflow.cfg" "w" with
       | Py.Ok _ =>
           ([FileOpen "lightflow.cfg" "w"; FileClose "lightflow.cfg"],
            Py.Raise (Py.mk_exn Py.AttributeError "'Command' object has no attribute 'default'"))
       | Py.Raise e => ([FileOpen "lightflow.cfg" "w"], Py.Raise e)
       end).
  { unfold Cli.config, with_open, bind, call. rewrite Hglob.
    destruct (open_file _ _); reflexivity. }
  split; [exact Hglob|]. split; [exact Hcfg|]. rewrite Hcfg.
  destruct (open_file _ _) as [[]|e]; simpl.
  - split; [reflexivity|]. split; [|now eexists].
    intros Hin. repeat (apply elem_of_cons in Hin as [Hin|Hin]; [discriminate|]). inversion Hin.
  - split; [reflexivity|]. split; [|now eexists].
    intros Hin. repeat (apply elem_of_cons in Hin as [Hin|Hin]; [discriminate|]). inversion Hin.
Qed.

(** * Further properties of the commands *)

(** ** [run]: what becomes of the answer of [run_workflow] *)

Section RunOutcome.
Context `{Env}.

(** [dict] fails with [ValueError] only. *)
Lemma dict_update_value_error i (seq : list (list string)) (d : gmap string string) e :
  Py.dict_update i seq d = Py.Raise e -> Py.exc_class e = Py.ValueError.
Proof.
  revert i d. induction seq as [|el seq IH]; intros i d; simpl; [discriminate|].
  destruct el as [|a [|b [|c el]]]; try (intros [= <-]; reflexivity). apply IH.
Qed.

(** [run] once the mapping is built. *)
Lemma run_with_arguments (keep_data : bool) (name : string) (args : list string)
    (d : gmap string string) :
  Py.dict (map (Py.split "=" 1) args) = Py.Ok d ->
  Cli.run keep_data name args
  = match run_workflow name (negb keep_data) d with
    | Py.Ok _ => ([RunWorkflow name (negb keep_data) d], Py.Ok tt)
    | Py.Raise e =>
        if decide (Py.exc_class e = Py.WorkflowArgumentError) then
          ([ RunWorkflow name (negb keep_data) d;
             Echo (style "An error occurred when trying to run the workflow:"
                     (Some "red") (Some true));
             Echo (">> " +:+ Py.exc_msg e) ], Py.Ok tt)
        else ([RunWorkflow name (negb keep_data) d], Py.Raise e)
    end.
Proof.
  intros Hd. unfold Cli.run, try_except, bind, lift, call, ret. rewrite Hd. simpl.
  destruct (run_workflow _ _ _) as [wid|e]; simpl; [reflexivity|].
  destruct (decide _); reflexivity.
Qed.

End RunOutcome.

(** X1.  When [run_workflow] raises a [WorkflowArgumentError], [run] does
    not fail: it echoes the heading in bold red and then ['>> '] followed by
    the message of the exception, and returns. *)
Theorem run_reports_workflow_argument_error `{Env} (keep_data : bool) (name : string)
    (args : list string) (d : gmap string string) (e : Py.exn) :
  Py.dict (map (Py.split "=" 1) args) = Py.Ok d ->
  run_workflow name (negb keep_data) d = Py.Raise e ->
  Py.exc_class e = Py.WorkflowArgumentError ->
  Cli.run keep_data name args
  = ([ RunWorkflow name (negb keep_data) d;
       Echo (style "An error occurred when trying to run the workflow:" (Some "red") (Some true));
       Echo (">> " +:+ Py.exc_msg e) ], Py.Ok tt).
Proof.
  intros Hd Hr Hc. rewrite (run_with_arguments _ _ _ _ Hd), Hr.
  destruct (decide _); [reflexivity | contradiction].
Qed.

Lemma run_reports_workflow_argument_error_witness :
  Py.dict (map (Py.split "=" 1) ["n=3"]) = Py.Ok {[ "n" := "3" ]}
  /\ @Cli.run (with_run_workflow_error demo_env) true "demo" ["n=3"]
     = ([ RunWorkflow "demo" false {[ "n" := "3" ]};
          Echo "An error occurred when trying to run the workflow:";
          Echo ">> missing argument" ], Py.Ok tt).
Proof.
  assert (Hd : Py.dict (map (Py.split "=" 1) ["n=3"]) = Py.Ok {[ "n" := "3" ]})
    by (vm_compute; reflexivity).
  split; [exact Hd|].
  exact (@run_reports_workflow_argument_error (with_run_workflow_error demo_env)
           true "demo" ["n=3"] _ _ Hd eq_refl eq_refl).
Defined.

(** X2.  Any other exception of [run_workflow] leaves [run] unchanged and
    nothing is echoed. *)
Theorem run_propagates_other_errors `{Env} (keep_data : bool) (name : string)
    (args : list string) (d : gmap string string) (e : Py.exn) :
  Py.dict (map (Py.split "=" 1) args) = Py.Ok d ->
  run_workflow name (negb keep_data) d = Py.Raise e ->
  Py.exc_class e <> Py.WorkflowArgumentError ->
  Cli.run keep_data name args = ([RunWorkflow name (negb keep_data) d], Py.Raise e).
Proof.
  intros Hd Hr Hc. rewrite (run_with_arguments _ _ _ _ Hd), Hr.
  destruct (decide _); [contradiction | reflexivity].
Qed.

Lemma run_propagates_other_errors_witness :
  Py.dict (map (Py.split "=" 1) ["n=3"]) = Py.Ok {[ "n" := "3" ]}
  /\ @Cli.run (demo_env_with (Py.Ok []) (fun _ _ => Py.Ok [])
                 (Py.Raise (Py.mk_exn (Py.OtherError "ConnectionError") "broker down"))
                 (Py.Ok [])) false "demo" ["n=3"]
     = ([RunWorkflow "demo" true {[ "n" := "3" ]}],
        Py.Raise (Py.mk_exn (Py.OtherError "ConnectionError") "broker down")).
Proof.
  assert (Hd : Py.dict (map (Py.split "=" 1) ["n=3"]) = Py.Ok {[ "n" := "3" ]})
    by (vm_compute; reflexivity).
  split; [exact Hd|].
  refine (@run_propagates_other_errors
            (demo_env_with (Py.Ok []) (fun _ _ => Py.Ok [])
               (Py.Raise (Py.mk_exn (Py.OtherError "ConnectionError") "broker down"))
               (Py.Ok []))
            false "demo" ["n=3"] _ _ Hd eq_refl _).
  discriminate.
Defined.

(** X3.  No invocation of [run] ends with a [WorkflowArgumentError]: the
    one [run_workflow] may raise is caught, and building the mapping raises
    [ValueError] only. *)
Theorem run_never_raises_workflow_argument_error `{Env} (keep_data : bool)
    (name : string) (args : list string) :
  ~ raises Py.WorkflowArgumentError (Cli.run keep_data name args).
Proof.
  intros (e & He & Hc).
  destruct (Py.dict (map (Py.split "=" 1) args)) as [d|e'] eqn:Hd.
  - rewrite (run_with_arguments _ _ _ _ Hd) in He.
    destruct (run_workflow _ _ _) as [wid|e'']; [discriminate|].
    destruct (decide _) as [|Hne]; [discriminate|].
    simpl in He. injection He as <-. contradiction.
  - pose proof (dict_update_value_error _ _ _ _ Hd) as Hv.
    rewrite (run_dict_raises _ _ _ _ Hd) in He by (rewrite Hv; discriminate).
    simpl in He. injection He as <-. rewrite Hv in Hc. discriminate.
Qed.

(** X4.  When [run_workflow] returns, [run] returns too and writes nothing
    to the console: the workflow id it was given is dropped. *)
Theorem run_success_is_silent `{Env} (keep_data : bool) (name : string)
    (args : list string) (d : gmap string string) (wid : string) :
  Py.dict (map (Py.split "=" 1) args) = Py.Ok d ->
  run_workflow name (negb keep_data) d = Py.Ok wid ->
  result (Cli.run keep_data name args) = Py.Ok tt
  /\ echoed (trace (Cli.run keep_data name args)) = []
  /\ engine_calls (trace (Cli.run keep_data name args))
     = [RunWorkflow name (negb keep_data) d].
Proof.
  intros Hd Hr. rewrite (run_with_arguments _ _ _ _ Hd), Hr. now repeat split.
Qed.

Lemma run_success_is_silent_witness :
  Py.dict (map (Py.split "=" 1) ["n=3"]) = Py.Ok {[ "n" := "3" ]}
  /\ result (@Cli.run demo_env false "demo" ["n=3"]) = Py.Ok tt
  /\ echoed (trace (@Cli.run demo_env false "demo" ["n=3"])) = []
  /\ engine_calls (trace (@Cli.run demo_env false "demo" ["n=3"]))
     = [RunWorkflow "demo" true {[ "n" := "3" ]}].
Proof.
  assert (Hd : Py.dict (map (Py.split "=" 1) ["n=3"]) = Py.Ok {[ "n" := "3" ]})
    by (vm_compute; reflexivity).
  split; [exact Hd|].
  exact (@run_success_is_silent demo_env false "demo" ["n=3"] _ "wf-1" Hd eq_refl).
Defined.

(** ** [run]: the keys of the mapping *)

Section DictKeys.
Implicit Types (seq : list (list string)) (d : gmap string string).

(** A key the dict has stays in it. *)
Lemma dict_update_keeps i seq d d' k :
  Py.dict_update i seq d = Py.Ok d' -> is_Some (d !! k) -> is_Some (d' !! k).
Proof.
  revert i d. induction seq as [|el seq IH]; intros i d; simpl.
  - now intros [= ->].
  - destruct el as [|a [|b [|c el]]]; try discriminate.
    intros Hd Hk. apply (IH _ _ Hd). apply lookup_insert_is_Some.
    destruct (decide (a = k)); [now left | now right].
Qed.

(** The key of every element ends up in the dict. *)
Lemma dict_update_member i seq d d' k v :
  Py.dict_update i seq d = Py.Ok d' -> [k; v] ∈ seq -> is_Some (d' !! k).
Proof.
  revert i d. induction seq as [|el seq IH]; intros i d; simpl.
  - intros _ Hin. inversion Hin.
  - destruct el as [|a [|b [|c el]]]; try discriminate.
    intros Hd Hin. apply elem_of_cons in Hin as [[= <- <-]|Hin].
    + apply (dict_update_keeps _ _ _ _ _ Hd). rewrite lookup_insert_eq. now eexists.
    + now apply (IH _ _ Hd).
Qed.

(** What the dict holds comes from an element, or was there before. *)
Lemma dict_update_origin i seq d d' k v :
  Py.dict_update i seq d = Py.Ok d' -> d' !! k = Some v ->
  [k; v] ∈ seq \/ d !! k = Some v.
Proof.
  revert i d. induction seq as [|el seq IH]; intros i d; simpl.
  - intros [= ->] Hk. now right.
  - destruct el as [|a [|b [|c el]]]; try discriminate.
    intros Hd Hk. destruct (IH _ _ Hd Hk) as [Hin|Hin].
    + left. now right.
    + destruct (decide (a = k)) as [->|Hne].
      * rewrite lookup_insert_eq in Hin. injection Hin as ->. left. left.
      * rewrite lookup_insert_ne in Hin by assumption. now right.
Qed.

End DictKeys.

(** The pieces of a token with an ['=']: its key and a value. *)
Lemma token_key_split (t : string) :
  (0 < Py.count "=" t)%nat -> exists v, Py.split "=" 1 t = [token_key t; v].
Proof.
  intros Ht. destruct (first_sep "=" t Ht) as (k & v & -> & Hk).
  exists v. unfold token_key. now rewrite split_first.
Qed.

(** X5.  The mapping [run] passes to [run_workflow] has exactly the keys of
    the tokens: a key is bound if and only if it is the part before the
    first ['='] of one of the tokens. *)
Theorem run_arguments_keys `{Env} (keep_data : bool) (name : string) (args : list string) :
  Forall (fun t => (0 < Py.count "=" t)%nat) args ->
  exists d : gmap string string,
    run_workflow_calls (trace (Cli.run keep_data name args)) = [(name, negb keep_data, d)]
    /\ forall k, is_Some (d !! k) <-> exists t, t ∈ args /\ token_key t = k.
Proof.
  intros Hall. destruct (run_arguments args Hall) as [d Hd].
  exists d. split; [rewrite run_workflow_calls_run; now rewrite Hd|].
  intros k. split.
  - intros [v Hv]. destruct (dict_update_origin _ _ _ _ _ _ Hd Hv) as [Hin|Hin].
    + apply list_elem_of_fmap in Hin as (t & Heq & Hin). exists t. split; [assumption|].
      unfold token_key. now rewrite <- Heq.
    + rewrite lookup_empty in Hin. discriminate.
  - intros (t & Hin & <-).
    rewrite Forall_forall in Hall.
    destruct (token_key_split t) as [v Hv]; [now apply Hall|].
    apply (dict_update_member _ _ _ _ _ v Hd).
    apply list_elem_of_fmap. now exists t.
Qed.

Lemma run_arguments_keys_witness :
  Forall (fun t => (0 < Py.count "=" t)%nat) ["a=1"; "b=x=y"]
  /\ exists d : gmap string string,
       run_workflow_calls (trace (@Cli.run demo_env false "demo" ["a=1"; "b=x=y"]))
       = [("demo", true, d)]
       /\ forall k, is_Some (d !! k) <-> exists t, t ∈ ["a=1"; "b=x=y"] /\ token_key t = k.
Proof.
  assert (Hall : Forall (fun t => (0 < Py.count "=" t)%nat) ["a=1"; "b=x=y"]).
  { repeat constructor. }
  split; [exact Hall|].
  exact (@run_arguments_keys demo_env false "demo" _ Hall).
Defined.

(** Elements with distinct keys: the key decides the element. *)
Lemma distinct_keys_same_token (args : list string) (t t' : string) :
  NoDup (map token_key args) -> t ∈ args -> t' ∈ args -> token_key t = token_key t' -> t = t'.
Proof.
  induction args as [|a args IH]; intros Hnd Ht Ht' Hk; [inversion Ht|].
  simpl in Hnd. apply NoDup_cons in Hnd as [Hna Hnd].
  apply elem_of_cons in Ht as [->|Ht]; apply elem_of_cons in Ht' as [->|Ht'].
  - reflexivity.
  - exfalso. apply Hna. rewrite Hk. apply list_elem_of_fmap. now exists t'.
  - exfalso. apply Hna. rewrite <- Hk. apply list_elem_of_fmap. now exists t.
  - now apply IH.
Qed.

(** With distinct keys the mapping holds the pieces of the tokens, and no
    more. *)
Lemma run_arguments_distinct (args : list string) (d : gmap string string) :
  Forall (fun t => (0 < Py.count "=" t)%nat) args ->
  NoDup (map token_key args) ->
  Py.dict (map (Py.split "=" 1) args) = Py.Ok d ->
  forall k v, d !! k = Some v <-> exists t, t ∈ args /\ Py.split "=" 1 t = [k; v].
Proof.
  intros Hall Hnd Hd k v. split.
  - intros Hv. destruct (dict_update_origin _ _ _ _ _ _ Hd Hv) as [Hin|Hin].
    + apply list_elem_of_fmap in Hin as (t & Heq & Hin). now exists t.
    + rewrite lookup_empty in Hin. discriminate.
  - intros (t & Hin & Ht).
    assert (Hsome : is_Some (d !! k)).
    { apply (dict_update_member _ _ _ _ _ v Hd). apply list_elem_of_fmap. now exists t. }
    destruct Hsome as [v' Hv']. rewrite Hv'. f_equal.
    destruct (dict_update_origin _ _ _ _ _ _ Hd Hv') as [Hin'|Hin'].
    + apply list_elem_of_fmap in Hin' as (t' & Heq & Hin').
      assert (t = t').
      { apply (distinct_keys_same_token args); try assumption.
        unfold token_key. now rewrite Ht, <- Heq. }
      subst t'. rewrite Ht in Heq. now injection Heq.
    + rewrite lookup_empty in Hin'. discriminate.
Qed.

(** X6.  When the tokens have pairwise distinct keys, their order on the
    command line does not matter: any rearrangement of them makes [run] pass
    the same mapping to [run_workflow]. *)
Theorem run_arguments_order_irrelevant `{Env} (keep_data : bool) (name : string)
    (args args' : list string) :
  Forall (fun t => (0 < Py.count "=" t)%nat) args ->
  NoDup (map token_key args) ->
  args ≡ₚ args' ->
  run_workflow_calls (trace (Cli.run keep_data name args'))
  = run_workflow_calls (trace (Cli.run keep_data name args)).
Proof.
  intros Hall Hnd Hperm.
  assert (Hall' : Forall (fun t => (0 < Py.count "=" t)%nat) args') by now rewrite <- Hperm.
  assert (Hnd' : NoDup (map token_key args')) by now rewrite <- Hperm.
  destruct (run_arguments args Hall) as [d Hd].
  destruct (run_arguments args' Hall') as [d' Hd'].
  rewrite !run_workflow_calls_run, Hd, Hd'. do 3 f_equal.
  apply map_eq. intros k. apply option_eq. intros v.
  rewrite (run_arguments_distinct args d Hall Hnd Hd).
  rewrite (run_arguments_distinct args' d' Hall' Hnd' Hd').
  split; intros (t & Hin & Ht); exists t; (split; [|assumption]).
  - now rewrite Hperm.
  - now rewrite <- Hperm.
Qed.

Lemma run_arguments_order_irrelevant_witness :
  Forall (fun t => (0 < Py.count "=" t)%nat) ["a=1"; "b=2"; "c=3"]
  /\ NoDup (map token_key ["a=1"; "b=2"; "c=3"])
  /\ ["a=1"; "b=2"; "c=3"] ≡ₚ ["c=3"; "a=1"; "b=2"]
  /\ run_workflow_calls (trace (@Cli.run demo_env false "demo" ["c=3"; "a=1"; "b=2"]))
     = run_workflow_calls (trace (@Cli.run demo_env false "demo" ["a=1"; "b=2"; "c=3"])).
Proof.
  assert (Hall : Forall (fun t => (0 < Py.count "=" t)%nat) ["a=1"; "b=2"; "c=3"]).
  { repeat constructor. }
  assert (Hnd : NoDup (map token_key ["a=1"; "b=2"; "c=3"])).
  { change (NoDup ["a"; "b"; "c"]).
    repeat (apply NoDup_cons; split;
            [intros Hx; repeat (apply elem_of_cons in Hx as [Hx|Hx]; [discriminate|]);
             inversion Hx|]).
    apply NoDup_nil. exact I. }
  assert (Hperm : ["a=1"; "b=2"; "c=3"] ≡ₚ ["c=3"; "a=1"; "b=2"]).
  { change ["c=3"; "a=1"; "b=2"] with (["c=3"] ++ ["a=1"; "b=2"]).
    change ["a=1"; "b=2"; "c=3"] with (["a=1"; "b=2"] ++ ["c=3"]).
    apply Permutation_app_comm. }
  split; [exact Hall|]. split; [exact Hnd|]. split; [exact Hperm|].
  exact (@run_arguments_order_irrelevant demo_env false "demo" _ _ Hall Hnd Hperm).
Defined.

(** ** [stop]: the report *)

Section StopReport.
Context `{Env}.

Lemma for_each_echo {A : Type} (l : list A) (f : A -> string) :
  for_each l (fun x => echo (f x)) = (map (fun x => Echo (f x)) l, Py.Ok tt).
Proof.
  induction l as [|x l IH]; [reflexivity|].
  simpl. rewrite IH. reflexivity.
Qed.

(** [stop] on a non-empty id list: one call, then the report. *)
Lemma stop_nonempty (ids : list string) :
  ids <> [] ->
  Cli.stop ids
  = (let* tasks_stopped := call (stop_request ids) (stop_answer ids) in
     if Z.of_nat (length tasks_stopped) >? 0 then
       for_each tasks_stopped (fun t => echo (Cli.stop_line t))
     else echo "Could not find the specified dag or workflow").
Proof.
  intros Hne. unfold stop_request, stop_answer.
  destruct (decide ("all" ∈ ids)) as [Hall|Hall].
  - rewrite (stop_all ids Hall). now rewrite !bool_decide_eq_true_2.
  - rewrite (stop_ids ids Hne Hall). now rewrite !bool_decide_eq_false_2.
Qed.

End StopReport.

(** X7.  [stop] calls the engine exactly when it is given an id: without
    ids it asks for one on the console and returns. *)
Theorem stop_without_ids `{Env} (ids : list string) :
  (engine_calls (trace (Cli.stop ids)) = [] <-> ids = [])
  /\ Cli.stop [] = ([Echo "Please specify at least one dag or workflow"], Py.Ok tt).
Proof.
  split; [|reflexivity]. split.
  - intros Hcalls. destruct ids as [|i ids]; [reflexivity|].
    rewrite stop_nonempty, stop_report_calls in Hcalls by discriminate.
    unfold stop_request in Hcalls. now destruct (bool_decide _).
  - now intros ->.
Qed.

(** X8.  When the engine answers a stop request with a non-empty list of
    tasks, [stop] echoes one line ['Sent stop signal to <type>: <name>
    <<id>>'] per task, in the order of the answer, and returns. *)
Theorem stop_reports_each_task `{Env} (ids : list string) (tasks : list task) :
  ids <> [] ->
  stop_answer ids = Py.Ok tasks ->
  tasks <> [] ->
  Cli.stop ids
  = (stop_request ids
     :: map (fun t => Echo ("Sent stop signal to " +:+ task_type t +:+ ": "
                            +:+ task_name t +:+ " <" +:+ task_id t +:+ ">")) tasks,
     Py.Ok tt).
Proof.
  intros Hne Hans Htasks. rewrite (stop_nonempty ids Hne), Hans.
  destruct tasks as [|t tasks]; [congruence|].
  unfold bind, call. rewrite (proj2 (length_positive_cons t tasks)).
  now rewrite for_each_echo.
Qed.

Lemma stop_reports_each_task_witness :
  (["t-1"; "t-2"] <> [])
  /\ @stop_answer (demo_env_with (Py.Ok []) (fun _ _ => Py.Ok []) (Py.Ok "wf-1")
                     (Py.Ok [demo_task; demo_task])) ["t-1"; "t-2"]
     = Py.Ok [demo_task; demo_task]
  /\ @Cli.stop (demo_env_with (Py.Ok []) (fun _ _ => Py.Ok []) (Py.Ok "wf-1")
                  (Py.Ok [demo_task; demo_task])) ["t-1"; "t-2"]
     = ([ StopTasks ["t-1"; "t-2"];
          Echo "Sent stop signal to workflow: demo <t-1>";
          Echo "Sent stop signal to workflow: demo <t-1>" ], Py.Ok tt).
Proof.
  assert (Hne : ["t-1"; "t-2"] <> []) by discriminate.
  split; [exact Hne|]. split; [reflexivity|].
  refine (@stop_reports_each_task
            (demo_env_with (Py.Ok []) (fun _ _ => Py.Ok []) (Py.Ok "wf-1")
               (Py.Ok [demo_task; demo_task]))
            ["t-1"; "t-2"] [demo_task; demo_task] Hne eq_refl _).
  discriminate.
Defined.

(** X9.  An exception of the engine during a stop request leaves [stop]
    unchanged; nothing is echoed. *)
Theorem stop_propagates_engine_error `{Env} (ids : list string) (e : Py.exn) :
  ids <> [] ->
  stop_answer ids = Py.Raise e ->
  Cli.stop ids = ([stop_request ids], Py.Raise e).
Proof. intros Hne Hans. now rewrite (stop_nonempty ids Hne), Hans. Qed.

Lemma stop_propagates_engine_error_witness :
  (["all"] <> [])
  /\ @Cli.stop (demo_env_with (Py.Ok []) (fun _ _ => Py.Ok []) (Py.Ok "wf-1")
                  (Py.Raise (Py.mk_exn (Py.OtherError "ConnectionError") "broker down")))
       ["all"]
     = ([StopAllWorkflows],
        Py.Raise (Py.mk_exn (Py.OtherError "ConnectionError") "broker down")).
Proof.
  assert (Hne : ["all"] <> []) by discriminate.
  split; [exact Hne|].
  exact (@stop_propagates_engine_error
           (demo_env_with (Py.Ok []) (fun _ _ => Py.Ok []) (Py.Ok "wf-1")
              (Py.Raise (Py.mk_exn (Py.OtherError "ConnectionError") "broker down")))
           ["all"] _ Hne eq_refl).
Defined.

(** X10.  [stop] is silent exactly when it fails: whenever it returns it
    has echoed at least one line, and when it ends with an exception it has
    echoed none. *)
Theorem stop_silent_iff_fails `{Env} (ids : list string) :
  echoed (trace (Cli.stop ids)) = [] <-> exists e, result (Cli.stop ids) = Py.Raise e.
Proof.
  destruct ids as [|i ids].
  - simpl. split; [discriminate | intros [e He]; discriminate].
  - rewrite stop_nonempty by discriminate.
    destruct (stop_answer (i :: ids)) as [[|t tasks]|e].
    + rewrite stop_report_empty. simpl. unfold stop_request.
      destruct (bool_decide _); (split; [discriminate | intros [e He]; discriminate]).
    + unfold bind, call. rewrite (proj2 (length_positive_cons t tasks)), for_each_echo.
      simpl. unfold stop_request.
      destruct (bool_decide _); (split; [discriminate | intros [e He]; discriminate]).
    + unfold bind, call. simpl. unfold stop_request.
      destruct (bool_decide _); (split; [now eexists | reflexivity]).
Qed.

(** ** [worker]: the queue list *)

Section SplitJoin.
Variable sep : ascii.

(** A string that starts with a piece without separator is cut after it. *)
Lemma split_cut (m : Z) (p s : string) :
  Py.count sep p = 0%nat -> m <> 0 ->
  Py.split sep m (p +:+ String sep s) = p :: Py.split sep (m - 1) s.
Proof.
  intros Hp Hm. apply Z.eqb_neq in Hm.
  induction p as [|c p IH]; simpl; rewrite Hm.
  - now rewrite Ascii.eqb_refl.
  - simpl in Hp. destruct (Ascii.eqb c sep); [discriminate|].
    now rewrite IH.
Qed.

(** Splitting what was joined gives the pieces back. *)
Lemma split_join (m : Z) (pieces : list string) :
  m < 0 -> pieces <> [] ->
  Forall (fun p => Py.count sep p = 0%nat) pieces ->
  Py.split sep m (Py.join (String sep EmptyString) pieces) = pieces.
Proof.
  intros Hm Hne Hall. revert m Hm.
  induction Hall as [|p pieces Hp Hall IH]; intros m Hm; [congruence|].
  destruct pieces as [|q pieces].
  - simpl. now apply split_no_sep.
  - change (Py.join (String sep EmptyString) (p :: q :: pieces))
      with (p +:+ String sep (Py.join (String sep EmptyString) (q :: pieces))).
    rewrite split_cut by (assumption || lia).
    rewrite IH by (discriminate || lia). reflexivity.
Qed.

End SplitJoin.

(** X11.  Queue names without a comma, joined by commas into the value of
    [--queues], reach [run_worker] as they were: same names, same order. *)
Theorem worker_queues_round_trip `{Env} (names : list string) :
  names <> [] ->
  Forall (fun p => Py.count "," p = 0%nat) names ->
  trace (Cli.worker_command (Some (Py.join "," names))) = [RunWorker names].
Proof.
  intros Hne Hall. unfold Cli.worker_command, Cli.worker, call, trace. simpl fst.
  now rewrite (split_join "," (-1) names) by (assumption || lia).
Qed.

Lemma worker_queues_round_trip_witness :
  (["dag"; "my queue"; "task"] <> [])
  /\ Forall (fun p => Py.count "," p = 0%nat) ["dag"; "my queue"; "task"]
  /\ trace (@Cli.worker_command demo_env (Some "dag,my queue,task"))
     = [RunWorker ["dag"; "my queue"; "task"]].
Proof.
  assert (Hne : ["dag"; "my queue"; "task"] <> []) by discriminate.
  assert (Hall : Forall (fun p => Py.count "," p = 0%nat) ["dag"; "my queue"; "task"]).
  { repeat constructor. }
  split; [exact Hne|]. split; [exact Hall|].
  exact (@worker_queues_round_trip demo_env _ Hne Hall).
Defined.

(** X12.  [worker] always hands [run_worker] at least one queue name and
    ends as [run_worker] does; a value without a comma, the empty string
    included, is taken as the name of a single queue. *)
Theorem worker_never_without_queue `{Env} (queues : string) :
  exists p ps,
    Cli.worker queues = ([RunWorker (p :: ps)], run_worker (p :: ps))
    /\ (Py.count "," queues = 0%nat -> p = queues /\ ps = []).
Proof.
  unfold Cli.worker, call.
  pose proof (split_nonempty "," (-1) queues) as Hne.
  pose proof (split_no_sep "," (-1) queues) as Hone.
  destruct (Py.split "," (-1) queues) as [|p ps]; [congruence|].
  exists p, ps. split; [reflexivity|].
  intros Hc. specialize (Hone Hc). now injection Hone.
Qed.

Lemma worker_never_without_queue_witness :
  Py.count "," "" = 0%nat
  /\ @Cli.worker demo_env "" = ([RunWorker [""]], Py.Ok tt).
Proof.
  split; [reflexivity|].
  destruct (@worker_never_without_queue demo_env "") as (p & ps & Hw & Hone).
  destruct (Hone eq_refl) as [-> ->]. exact Hw.
Defined.

(** ** [info]: the task lines *)

Section InfoTasks.
Context `{Env}.

Lemma known_type_cases (t : task) :
  known_type t = true ->
  task_type t = "workflow" \/ task_type t = "dag" \/ task_type t = "task".
Proof.
  unfold known_type. simpl. rewrite orb_false_r, !orb_true_iff.
  intros [Hw|[Hd|Ht]]; [left | right; left | right; right]; now apply String.eqb_eq.
Qed.

Lemma unknown_type_cases (t : task) :
  known_type t = false ->
  String.eqb "workflow" (task_type t) = false
  /\ String.eqb "dag" (task_type t) = false
  /\ String.eqb "task" (task_type t) = false.
Proof.
  intros Hk. unfold known_type in Hk. simpl in Hk. rewrite !orb_false_iff in Hk.
  destruct Hk as (Hw & Hd & Ht & _). now rewrite !(String.eqb_sym _ (task_type t)).
Qed.

(** The line of a task record that can be printed: the heading of the
    status for the first task, twelve blanks for the others, then the
    styled text. *)
Lemma info_task_line (task_status : string) (i : Z) (t : task) :
  info_status task_status -> printable t = true ->
  exists wid_str fg,
    Cli.info_task task_status (i, t)
    = ([Echo ((if i =? 0
               then Py.ljust 20 (style ("> " +:+ task_status +:+ ":") None (Some true))
               else Py.ljust 12 " ")
              +:+ " " +:+ style (Cli.task_text t wid_str) fg None)], Py.Ok tt)
    /\ (task_status = "scheduled" -> fg = None)
    /\ (task_type t <> "workflow" -> wid_str = "").
Proof.
  intros Hst Hp. unfold printable in Hp. apply andb_true_iff in Hp as [Hk Hw].
  destruct t as [tid tname ttype twid]. simpl in *.
  apply known_type_cases in Hk. simpl in Hk.
  destruct Hst as [-> | ->]; destruct Hk as [-> | [-> | ->]];
    try (destruct twid as [wid|]; [|discriminate]);
    unfold Cli.info_task; simpl; destruct (i =? 0); simpl;
    eexists; eexists; (split; [reflexivity|]); (split; [try discriminate; reflexivity|]);
    intros Hne; try reflexivity; try congruence.
Qed.

Lemma getitem_unknown {V : Type} (a b c : V) (ty : string) :
  String.eqb "workflow" ty = false -> String.eqb "dag" ty = false ->
  String.eqb "task" ty = false ->
  Py.getitem [("workflow", a); ("dag", b); ("task", c)] ty
  = Py.Raise (Py.key_error ty).
Proof. intros Hw Hd Ht. cbn [Py.getitem]. now rewrite Hw, Hd, Ht. Qed.

(** A task record that cannot be printed ends the loop with [KeyError],
    before anything is echoed for it. *)
Lemma info_task_key_error (task_status : string) (i : Z) (t : task) :
  info_status task_status -> printable t = false ->
  Cli.info_task task_status (i, t) = ([], Py.Raise (task_key_error t)).
Proof.
  intros Hst Hp. unfold printable in Hp. unfold task_key_error.
  destruct (known_type t) eqn:Hk.
  - simpl in Hp. destruct t as [tid tname ttype twid]. simpl in *.
    destruct twid; [discriminate|]. apply negb_false_iff in Hp.
    unfold Cli.info_task. simpl. now rewrite Hp.
  - destruct (unknown_type_cases t Hk) as (Hw & Hd & Ht).
    unfold Cli.info_task. rewrite (String.eqb_sym (task_type t) "workflow"), Hw.
    destruct Hst as [-> | ->].
    + change (Py.getitem Cli.task_colour "active")
        with (Py.Ok [("workflow", Some "green"); ("dag", Some "yellow"); ("task", Some "magenta")]).
      unfold bind, lift, ret, trace, result. cbn [fst snd app].
      now rewrite getitem_unknown.
    + change (Py.getitem Cli.task_colour "scheduled")
        with (Py.Ok [("workflow", @None string); ("dag", None); ("task", None)]).
      unfold bind, lift, ret, trace, result. cbn [fst snd app].
      now rewrite getitem_unknown.
Qed.

End InfoTasks.

(** The message for a type with an apostrophe is between double quotes. *)
Example info_task_key_error_quoted :
  @Cli.info_task demo_env "active"
     (0, {| task_id := "t-4"; task_name := "odd"; task_type := "it's";
            task_workflow_id := None |})
  = ([], Py.Raise (Py.mk_exn Py.KeyError
                     (String Py.double_quote ("it's" +:+ String Py.double_quote EmptyString)))).
Proof. vm_compute. reflexivity. Qed.

(** ** [info]: the entries *)

Section InfoLoops.
Context `{Env}.

Lemma bind_ok {A B : Type} (tr : list event) (a : A) (k : A -> M B) :
  bind (tr, Py.Ok a) k = (tr ++ trace (k a), result (k a)).
Proof. reflexivity. Qed.

Lemma length_enumerate_from {A : Type} (i : Z) (l : list A) :
  length (Py.enumerate_from i l) = length l.
Proof. revert i. induction l as [|x l IH]; intros i; simpl; [reflexivity | now rewrite IH]. Qed.

(** The lines of the tasks of one status, when all can be printed. *)
Lemma info_tasks_lines (task_status : string) (i : Z) (tasks : list task) :
  info_status task_status ->
  Forall (fun t => printable t = true) tasks ->
  exists lines,
    for_each (Py.enumerate_from i tasks) (Cli.info_task task_status) = (map Echo lines, Py.Ok tt)
    /\ Forall2 (fun (it : Z * task) line =>
                  exists wid_str fg,
                    line = (if it.1 =? 0
                            then Py.ljust 20 (style ("> " +:+ task_status +:+ ":") None (Some true))
                            else Py.ljust 12 " ")
                           +:+ " " +:+ style (Cli.task_text it.2 wid_str) fg None
                    /\ (task_status = "scheduled" -> fg = None)
                    /\ (task_type it.2 <> "workflow" -> wid_str = ""))
               (Py.enumerate_from i tasks) lines.
Proof.
  intros Hst Hall. revert i. induction Hall as [|t tasks Ht _ IH]; intros i.
  - exists []. split; [reflexivity | constructor].
  - destruct (info_task_line task_status i t Hst Ht) as (w & fg & Hline & Hfg & Hw).
    destruct (IH (i + 1)) as (lines & Hrest & Hlines).
    eexists (_ :: lines). split.
    + cbn [Py.enumerate_from for_each]. rewrite Hline, bind_ok, Hrest. reflexivity.
    + constructor; [|exact Hlines]. now exists w, fg.
Qed.

(** The [j]-th pair of [enumerate]. *)
Lemma enumerate_from_lookup {A : Type} (P : Z * A -> string -> Prop) (i : Z) (l : list A)
    (lines : list string) (j : nat) (line : string) :
  Forall2 P (Py.enumerate_from i l) lines ->
  lines !! j = Some line ->
  exists x, l !! j = Some x /\ P (i + Z.of_nat j, x) line.
Proof.
  revert i lines j. induction l as [|x l IH]; intros i lines j Hall Hj.
  - apply Forall2_nil_inv_l in Hall as ->. discriminate.
  - simpl in Hall. apply Forall2_cons_inv_l in Hall as (line0 & lines' & Hhead & Hrest & ->).
    destruct j as [|j].
    + injection Hj as <-. exists x. split; [reflexivity|].
      now replace (i + Z.of_nat 0) with i by lia.
    + destruct (IH (i + 1) lines' j Hrest Hj) as (y & Hy & HP).
      exists y. split; [exact Hy|].
      now replace (i + Z.of_nat (S j)) with (i + 1 + Z.of_nat j) by lia.
Qed.

(** The first task record that cannot be printed ends the loop. *)
Lemma info_tasks_key_error (task_status : string) (i : Z) (pre : list task) (t : task)
    (post : list task) :
  info_status task_status ->
  Forall (fun t => printable t = true) pre ->
  printable t = false ->
  exists lines,
    for_each (Py.enumerate_from i (pre ++ t :: post)) (Cli.info_task task_status)
    = (map Echo lines, Py.Raise (task_key_error t))
    /\ length lines = length pre.
Proof.
  intros Hst Hpre Ht. revert i. induction Hpre as [|p pre Hp _ IH]; intros i.
  - exists []. split; [|reflexivity].
    cbn [app Py.enumerate_from for_each]. now rewrite info_task_key_error.
  - destruct (info_task_line task_status i p Hst Hp) as (w & fg & Hline & _).
    destruct (IH (i + 1)) as (lines & Hrest & Hlen).
    eexists (_ :: lines). split.
    + cbn [app Py.enumerate_from for_each]. rewrite Hline, bind_ok, Hrest. reflexivity.
    + simpl. now rewrite Hlen.
Qed.


(** The entry of a worker whose questions are all answered. *)
Lemma info_worker_complete (name : string) (wd : worker_data) (qs : list string)
    (ta ts : list task) :
  get_queues name = Py.Ok qs ->
  get_tasks name "active" = Py.Ok ta ->
  get_tasks name "scheduled" = Py.Ok ts ->
  Forall (fun t => printable t = true) ta ->
  Forall (fun t => printable t = true) ts ->
  exists head la ls,
    length head = 4%nat /\ length la = length ta /\ length ls = length ts
    /\ Cli.info_worker (name, wd)
       = (map Echo head
          ++ [GetQueues name;
              Echo (Py.ljust 20 (style "> queues:" None (Some true)) +:+ " " +:+ Py.join ", " qs);
              GetTasks name "active"]
          ++ map Echo la ++ [GetTasks name "scheduled"] ++ map Echo ls
          ++ [Echo (String "010" EmptyString)], Py.Ok tt).
Proof.
  intros Hq Ha Hs Hta Hts.
  destruct (info_tasks_lines "active" 0 ta (or_introl eq_refl) Hta) as (la & Hla & Hfa).
  destruct (info_tasks_lines "scheduled" 0 ts (or_intror eq_refl) Hts) as (ls & Hls & Hfs).
  eexists [_; _; _; _], la, ls. split; [reflexivity|].
  split; [now rewrite <- (Forall2_length _ _ _ Hfa), length_enumerate_from|].
  split; [now rewrite <- (Forall2_length _ _ _ Hfs), length_enumerate_from|].
  unfold Cli.info_worker. cbn [for_each]. unfold call. rewrite Hq, Ha, Hs.
  unfold Py.enumerate. rewrite !bind_ok, Hla, Hls.
  unfold bind, echo, ret, trace, result. cbn [fst snd map].
  rewrite <- ?app_assoc. reflexivity.
Qed.

End InfoLoops.

Section InfoTrace.
Context `{Env}.

Lemma trace_bind_Forall {A B : Type} (P : event -> Prop) (m : M A) (k : A -> M B) :
  Forall P (trace m) -> (forall a, Forall P (trace (k a))) -> Forall P (trace (bind m k)).
Proof.
  intros Hm Hk. destruct m as [tr [a|e]]; simpl in *; [|assumption].
  apply Forall_app. split; [assumption | apply Hk].
Qed.

Lemma trace_for_each_Forall {A : Type} (P : event -> Prop) (l : list A) (body : A -> M unit) :
  (forall x, Forall P (trace (body x))) -> Forall P (trace (for_each l body)).
Proof.
  intros Hbody. induction l as [|x l IH]; simpl; [constructor|].
  apply trace_bind_Forall; [apply Hbody | intros _; exact IH].
Qed.

Lemma info_task_only_echo (task_status : string) (it : Z * task) :
  Forall (fun ev => is_query_or_echo ev = true) (trace (Cli.info_task task_status it)).
Proof.
  destruct it as [i t]. unfold Cli.info_task.
  apply trace_bind_Forall.
  - destruct (String.eqb _ _); [destruct (task_workflow_id t)|]; simpl; constructor.
  - intros w. apply trace_bind_Forall; [simpl; constructor|]. intros colours.
    apply trace_bind_Forall; [simpl; constructor|]. intros fg.
    destruct (i =? 0); simpl; repeat constructor.
Qed.

Lemma info_worker_only_queries (w : string * worker_data) :
  Forall (fun ev => is_query_or_echo ev = true) (trace (Cli.info_worker w)).
Proof.
  destruct w as [name wd]. unfold Cli.info_worker.
  do 4 (apply trace_bind_Forall; [simpl; repeat constructor | intros _]).
  apply trace_bind_Forall; [simpl; repeat constructor | intros qs].
  apply trace_bind_Forall; [simpl; repeat constructor | intros _].
  apply trace_bind_Forall; [|intros _; simpl; repeat constructor].
  apply trace_for_each_Forall. intros st.
  apply trace_bind_Forall; [simpl; repeat constructor | intros tasks].
  apply trace_for_each_Forall. intros it. apply info_task_only_echo.
Qed.

End InfoTrace.

(** X13.  [info] only reads: every event of its trace is a question to the
    engine ([get_workers], [get_queues], [get_tasks]) or a line on the
    console; it starts and stops nothing and touches no file. *)
Theorem info_only_queries `{Env} :
  Forall (fun ev => is_query_or_echo ev = true) (trace Cli.info).
Proof.
  unfold Cli.info.
  apply trace_bind_Forall; [simpl; repeat constructor | intros workers].
  apply trace_bind_Forall; [simpl; repeat constructor | intros _].
  apply trace_for_each_Forall. intros w. apply info_worker_only_queries.
Qed.

Section InfoWhole.
Context `{Env}.

Lemma for_each_all_ok {A : Type} (body : A -> M unit) (l : list A) :
  Forall (fun w => result (body w) = Py.Ok tt) l ->
  for_each l body = (concat (map (fun w => trace (body w)) l), Py.Ok tt).
Proof.
  induction 1 as [|w l Hw _ IH]; [reflexivity|].
  simpl. destruct (body w) as [tr [[]|e]]; simpl in *; [|discriminate].
  now rewrite IH.
Qed.

Lemma for_each_raise {A : Type} (body : A -> M unit) (pre : list A) (x : A)
    (post : list A) (e : Py.exn) :
  Forall (fun w => result (body w) = Py.Ok tt) pre ->
  result (body x) = Py.Raise e ->
  result (for_each (pre ++ x :: post) body) = Py.Raise e.
Proof.
  intros Hpre Hx. induction Hpre as [|w pre Hw _ IH]; simpl.
  - destruct (body x) as [tr [[]|e']]; simpl in *; [discriminate | assumption].
  - destruct (body w) as [tr [[]|e']]; simpl in *; [assumption | discriminate].
Qed.

Lemma engine_calls_echo (lines : list string) : engine_calls (map Echo lines) = [].
Proof. induction lines as [|l lines IH]; [reflexivity | exact IH]. Qed.

Lemma echoed_echo (lines : list string) : echoed (map Echo lines) = lines.
Proof.
  induction lines as [|l lines IH]; [reflexivity|].
  change (l :: echoed (map Echo lines) = l :: lines). now rewrite IH.
Qed.

Lemma echoed_app (tr tr' : list event) : echoed (tr ++ tr') = echoed tr ++ echoed tr'.
Proof. apply omap_app. Qed.

(** The entry of a worker with an active task that has no line. *)
Lemma info_worker_stops (name : string) (wd : worker_data) (qs : list string)
    (ts_pre : list task) (t : task) (ts_post : list task) :
  get_queues name = Py.Ok qs ->
  get_tasks name "active" = Py.Ok (ts_pre ++ t :: ts_post) ->
  Forall (fun t' => printable t' = true) ts_pre ->
  printable t = false ->
  exists head lines,
    length head = 4%nat /\ length lines = length ts_pre
    /\ Cli.info_worker (name, wd)
       = (map Echo head
          ++ [GetQueues name;
              Echo (Py.ljust 20 (style "> queues:" None (Some true)) +:+ " " +:+ Py.join ", " qs);
              GetTasks name "active"]
          ++ map Echo lines, Py.Raise (task_key_error t)).
Proof.
  intros Hq Ha Hts Ht.
  destruct (info_tasks_key_error "active" 0 ts_pre t ts_post (or_introl eq_refl) Hts Ht)
    as (lines & Hloop & Hlen).
  eexists [_; _; _; _], lines. split; [reflexivity|]. split; [exact Hlen|].
  unfold Cli.info_worker. cbn [for_each]. unfold call. rewrite Hq, Ha.
  unfold Py.enumerate. rewrite !bind_ok, Hloop.
  unfold bind, echo, ret, trace, result. cbn [fst snd map].
  rewrite <- ?app_assoc. reflexivity.
Qed.

(** The entry of a worker the engine answers for: it is complete, asks
    three questions and has six lines besides those of the tasks. *)
Lemma info_worker_answers (name : string) (wd : worker_data) :
  worker_answers name ->
  result (Cli.info_worker (name, wd)) = Py.Ok tt
  /\ engine_calls (trace (Cli.info_worker (name, wd)))
     = [GetQueues name; GetTasks name "active"; GetTasks name "scheduled"]
  /\ length (echoed (trace (Cli.info_worker (name, wd))))
     = (6 + length (answered_tasks (get_tasks name "active"))
        + length (answered_tasks (get_tasks name "scheduled")))%nat.
Proof.
  intros [[qs Hq] Htasks].
  destruct (Htasks "active" (or_introl eq_refl)) as (ta & Ha & Hta).
  destruct (Htasks "scheduled" (or_intror eq_refl)) as (ts & Hs & Hts).
  destruct (info_worker_complete name wd qs ta ts Hq Ha Hs Hta Hts)
    as (head & la & ls & Hhead & Hla & Hls & ->).
  rewrite Ha, Hs. unfold trace, result. cbn [fst snd answered_tasks].
  split; [reflexivity|]. split.
  - rewrite !engine_calls_app, !engine_calls_echo. reflexivity.
  - rewrite !echoed_app, !echoed_echo, !length_app, Hhead, Hla, Hls. simpl. lia.
Qed.

End InfoWhole.

(** X14.  Without workers [info] echoes a single blank line and returns;
    and when [get_workers] raises, the exception leaves [info] before
    anything is echoed. *)
Theorem info_without_workers `{Env} :
  (get_workers = Py.Ok [] ->
   Cli.info = ([GetWorkers; Echo (String "010" EmptyString)], Py.Ok tt))
  /\ (forall e, get_workers = Py.Raise e -> Cli.info = ([GetWorkers], Py.Raise e)).
Proof.
  split; [intros Hw | intros e Hw]; unfold Cli.info, call; now rewrite Hw.
Qed.

Lemma info_without_workers_witness :
  @Cli.info (demo_env_with (Py.Ok []) (fun _ _ => Py.Ok []) (Py.Ok "wf-1") (Py.Ok []))
  = ([GetWorkers; Echo (String "010" EmptyString)], Py.Ok tt)
  /\ @Cli.info (demo_env_with (Py.Raise (Py.mk_exn (Py.OtherError "ConnectionError") "broker down"))
                  (fun _ _ => Py.Ok []) (Py.Ok "wf-1") (Py.Ok []))
     = ([GetWorkers], Py.Raise (Py.mk_exn (Py.OtherError "ConnectionError") "broker down")).
Proof.
  split.
  - exact (proj1 (@info_without_workers
                    (demo_env_with (Py.Ok []) (fun _ _ => Py.Ok []) (Py.Ok "wf-1") (Py.Ok [])))
                 eq_refl).
  - exact (proj2 (@info_without_workers
                    (demo_env_with (Py.Raise (Py.mk_exn (Py.OtherError "ConnectionError") "broker down"))
                       (fun _ _ => Py.Ok []) (Py.Ok "wf-1") (Py.Ok [])))
                 _ eq_refl).
Defined.

(** X15.  A task record without a line ends [info] with [KeyError], whose
    message is the [repr] of the missing key: an active task whose type is
    none of [workflow], [dag], [task] (the key is the type), or a task of
    type [workflow] without [workflow_id] (the key is ['workflow_id']).
    The entry of the worker stops after the lines of the tasks before
    it. *)
Theorem info_task_without_line `{Env} (pre : list (string * worker_data)) (name : string)
    (wd : worker_data) (post : list (string * worker_data)) (qs : list string)
    (ts_pre : list task) (t : task) (ts_post : list task) :
  get_workers = Py.Ok (pre ++ (name, wd) :: post) ->
  Forall (fun w => worker_answers w.1) pre ->
  get_queues name = Py.Ok qs ->
  get_tasks name "active" = Py.Ok (ts_pre ++ t :: ts_post) ->
  Forall (fun t' => printable t' = true) ts_pre ->
  printable t = false ->
  result Cli.info = Py.Raise (task_key_error t)
  /\ length (echoed (trace (Cli.info_worker (name, wd)))) = (5 + length ts_pre)%nat
  /\ engine_calls (trace (Cli.info_worker (name, wd))) = [GetQueues name; GetTasks name "active"].
Proof.
  intros Hw Hpre Hq Ha Hts Ht.
  destruct (info_worker_stops name wd qs ts_pre t ts_post Hq Ha Hts Ht)
    as (head & lines & Hhead & Hlines & Hentry).
  split; [|split].
  - unfold Cli.info, call. rewrite Hw, !bind_ok. unfold result at 1. cbn [snd].
    apply for_each_raise.
    + eapply Forall_impl; [exact Hpre|]. intros [n w] Hn. now apply info_worker_answers.
    + now rewrite Hentry.
  - rewrite Hentry. unfold trace. cbn [fst].
    rewrite !echoed_app, !echoed_echo, !length_app, Hhead, Hlines. simpl. lia.
  - rewrite Hentry. unfold trace. cbn [fst].
    rewrite !engine_calls_app, !engine_calls_echo. reflexivity.
Qed.

(** X16.  The tasks of one status are listed one per line, in the order of
    the answer; only the first line carries the heading of the status, the
    others start with twelve blanks; scheduled tasks are never coloured,
    and a task that is not a workflow has no id in brackets. *)
Theorem info_status_heading_once `{Env} (task_status : string) (tasks : list task) :
  info_status task_status ->
  Forall (fun t => printable t = true) tasks ->
  exists lines,
    for_each (Py.enumerate tasks) (Cli.info_task task_status) = (map Echo lines, Py.Ok tt)
    /\ length lines = length tasks
    /\ forall (j : nat) line,
         lines !! j = Some line ->
         exists t wid_str fg,
           tasks !! j = Some t
           /\ line = match j with
                     | O => Py.ljust 20 (style ("> " +:+ task_status +:+ ":") None (Some true))
                     | S _ => Py.ljust 12 " "
                     end +:+ " " +:+ style (Cli.task_text t wid_str) fg None
           /\ (task_status = "scheduled" -> fg = None)
           /\ (task_type t <> "workflow" -> wid_str = "").
Proof.
  intros Hst Hall.
  destruct (info_tasks_lines task_status 0 tasks Hst Hall) as (lines & Hloop & Hlines).
  exists lines. split; [exact Hloop|]. split.
  - now rewrite <- (Forall2_length _ _ _ Hlines), length_enumerate_from.
  - intros j line Hj.
    destruct (enumerate_from_lookup _ 0 tasks lines j line Hlines Hj)
      as (t & Ht & w & fg & Hline & Hfg & Hw).
    exists t, w, fg. split; [exact Ht|]. split; [|now split].
    rewrite Hline. cbn [fst snd]. now destruct j.
Qed.

Lemma info_status_heading_once_witness :
  info_status "scheduled"
  /\ Forall (fun t => printable t = true) [demo_task; plain_task]
  /\ exists lines,
       @for_each (Z * task) (Py.enumerate [demo_task; plain_task])
         (@Cli.info_task demo_env "scheduled") = (map Echo lines, Py.Ok tt)
       /\ length lines = 2%nat.
Proof.
  assert (Hst : info_status "scheduled") by now right.
  assert (Hall : Forall (fun t => printable t = true) [demo_task; plain_task]).
  { repeat constructor. }
  split; [exact Hst|]. split; [exact Hall|].
  destruct (@info_status_heading_once demo_env "scheduled" _ Hst Hall) as (lines & Hloop & Hlen & _).
  exists lines. split; [exact Hloop | exact Hlen].
Defined.

(** X17.  When the engine answers every question and all task records can
    be printed, [info] returns; it asks for the workers once and then, for
    each worker in turn, for its queues, its active and its scheduled tasks;
    and it echoes one blank line, then six lines per worker plus one per
    task. *)
Theorem info_complete `{Env} (workers : list (string * worker_data)) :
  get_workers = Py.Ok workers ->
  Forall (fun w => worker_answers w.1) workers ->
  result Cli.info = Py.Ok tt
  /\ engine_calls (trace Cli.info)
     = GetWorkers
       :: concat (map (fun w => [GetQueues w.1; GetTasks w.1 "active"; GetTasks w.1 "scheduled"])
                      workers)
  /\ length (echoed (trace Cli.info))
     = (1 + sum_list (map (fun w => 6 + length (answered_tasks (get_tasks w.1 "active"))
                                    + length (answered_tasks (get_tasks w.1 "scheduled")))
                          workers))%nat.
Proof.
  intros Hw Hall.
  assert (Hok : Forall (fun w => result (Cli.info_worker w) = Py.Ok tt) workers).
  { eapply Forall_impl; [exact Hall|]. intros [n wd] Hn. now apply info_worker_answers. }
  unfold Cli.info, call. rewrite Hw, !bind_ok, (for_each_all_ok _ _ Hok).
  unfold trace at 1 3 5, result at 1. cbn [fst snd].
  split; [reflexivity|]. unfold echo, trace at 1 3. cbn [fst app].
  clear Hw Hok. split.
  - change (GetWorkers :: engine_calls (concat (map (fun w => trace (Cli.info_worker w)) workers))
            = GetWorkers :: concat (map (fun w => [GetQueues w.1; GetTasks w.1 "active";
                                                   GetTasks w.1 "scheduled"]) workers)).
    f_equal. induction Hall as [|[n wd] workers Hn _ IH]; [reflexivity|].
    cbn [map concat]. rewrite engine_calls_app, IH.
    now rewrite (proj1 (proj2 (info_worker_answers n wd Hn))).
  - change (S (length (echoed (concat (map (fun w => trace (Cli.info_worker w)) workers))))
            = (1 + sum_list (map (fun w => 6 + length (answered_tasks (get_tasks w.1 "active"))
                                           + length (answered_tasks (get_tasks w.1 "scheduled")))
                                 workers))%nat).
    cbn [Nat.add]. f_equal. induction Hall as [|[n wd] workers Hn _ IH]; [reflexivity|].
    cbn [map concat sum_list sum_list_with]. rewrite echoed_app, length_app, IH.
    now rewrite (proj2 (proj2 (info_worker_answers n wd Hn))).
Qed.

Lemma info_task_without_line_witness :
  @get_workers
     (demo_env_with (Py.Ok [("celery@a", demo_worker)])
        (fun _ st => Py.Ok (if String.eqb st "active" then [demo_task; odd_task; plain_task] else []))
        (Py.Ok "wf-1") (Py.Ok []))
  = Py.Ok ([] ++ ("celery@a", demo_worker) :: [])
  /\ Forall (fun t' => printable t' = true) [demo_task]
  /\ printable odd_task = false
  /\ result (@Cli.info
               (demo_env_with (Py.Ok [("celery@a", demo_worker)])
                  (fun _ st => Py.Ok (if String.eqb st "active"
                                      then [demo_task; odd_task; plain_task] else []))
                  (Py.Ok "wf-1") (Py.Ok [])))
     = Py.Raise (Py.mk_exn Py.KeyError "'chain'").
Proof.
  assert (Hpre : Forall (fun t' => printable t' = true) [demo_task]) by (repeat constructor).
  split; [reflexivity|]. split; [exact Hpre|]. split; [reflexivity|].
  refine (proj1 (@info_task_without_line
                   (demo_env_with (Py.Ok [("celery@a", demo_worker)])
                      (fun _ st => Py.Ok (if String.eqb st "active"
                                          then [demo_task; odd_task; plain_task] else []))
                      (Py.Ok "wf-1") (Py.Ok []))
                   [] "celery@a" demo_worker [] ["workflow"; "dag"; "task"]
                   [demo_task] odd_task [plain_task] eq_refl _ eq_refl eq_refl Hpre eq_refl)).
  constructor.
Defined.

Lemma info_complete_witness :
  @get_workers demo_env = Py.Ok [("celery@a", demo_worker); ("celery@b", demo_worker)]
  /\ Forall (fun w => @worker_answers demo_env w.1)
            [("celery@a", demo_worker); ("celery@b", demo_worker)]
  /\ result (@Cli.info demo_env) = Py.Ok tt
  /\ engine_calls (trace (@Cli.info demo_env))
     = [ GetWorkers;
         GetQueues "celery@a"; GetTasks "celery@a" "active"; GetTasks "celery@a" "scheduled";
         GetQueues "celery@b"; GetTasks "celery@b" "active"; GetTasks "celery@b" "scheduled" ]
  /\ length (echoed (trace (@Cli.info demo_env))) = 15%nat.
Proof.
  assert (Hans : forall name, @worker_answers demo_env name).
  { intros name. split; [now eexists|].
    intros st [-> | ->]; eexists; (split; [reflexivity | repeat constructor]). }
  assert (Hall : Forall (fun w => @worker_answers demo_env w.1)
                        [("celery@a", demo_worker); ("celery@b", demo_worker)]).
  { repeat constructor; apply Hans. }
  split; [reflexivity|]. split; [exact Hall|].
  exact (@info_complete demo_env _ eq_refl Hall).
Defined.

(** ** [run]: when the engine is reached *)

(** A token without ['='] stops [run] while the mapping is built. *)
Lemma run_malformed_arguments `{Env} (keep_data : bool) (name : string) (args : list string) :
  (exists t, t ∈ args /\ Py.count "=" t = 0%nat) ->
  exists j, Cli.run keep_data name args = ([], Py.Raise (Py.dict_length_error j 1)).
Proof.
  intros Hbad.
  destruct (first_without_eq args Hbad) as (pre & t & post & -> & Ht & Hpre).
  exists (length pre). apply run_dict_raises; [|discriminate].
  unfold Py.dict. rewrite map_app. simpl. rewrite (split_no_sep _ _ _ Ht).
  rewrite dict_update_short by now apply split_tokens_pairs.
  now rewrite length_map.
Qed.

(** X18.  [run] reaches [run_workflow] exactly when every token has an
    ['=']: a token without one is the only thing that stops it before the
    call. *)
Theorem run_calls_engine_iff_well_formed `{Env} (keep_data : bool) (name : string)
    (args : list string) :
  run_workflow_calls (trace (Cli.run keep_data name args)) = []
  <-> exists t, t ∈ args /\ Py.count "=" t = 0%nat.
Proof.
  split.
  - intros Hnone.
    destruct (decide (Forall (fun t => (0 < Py.count "=" t)%nat) args)) as [Hall|Hnall].
    + destruct (run_arguments args Hall) as [d Hd].
      rewrite run_workflow_calls_run, Hd in Hnone. discriminate.
    + apply not_Forall_Exists in Hnall; [|intros t; apply _].
      apply Exists_exists in Hnall as (t & Hin & Ht). exists t. unfold compose in Ht. cbv beta in Ht. split; [exact Hin | lia].
  - intros Hbad.
    destruct (run_malformed_arguments keep_data name args Hbad) as (j & Hrun).
    now rewrite Hrun.
Qed.
